(** * netbyte test server: line framing, sub-test runner and handlers

    A shallow embedding of [netbyte/testserver.py].  Python 2 byte strings
    are lists of 8-bit characters, Python integers are [Z], and the socket
    together with the operator console is an explicit world threaded through
    a small state-and-exception monad. *)

From Stdlib Require Import ZArith Ascii String List Bool Arith Lia.
Import ListNotations.

(** ** Byte strings *)

Abbreviation str := (list ascii).

(** A literal of the source, without its escapes. *)
Definition py (s : string) : str := list_ascii_of_string s.

(** ['\n'], also written ['\x0a'] in the source. *)
Definition nl : ascii := ascii_of_nat 10.

(** [len(s)] *)
Definition len (s : str) : Z := Z.of_nat (length s).

(** The truth value of a string: non-empty. *)
Definition truthy (s : str) : bool :=
  match s with [] => false | _ :: _ => true end.

(** [c in s] *)
Definition contains (c : ascii) (s : str) : bool := existsb (Ascii.eqb c) s.

Fixpoint index_of (c : ascii) (s : str) : option nat :=
  match s with
  | [] => None
  | x :: s' => if Ascii.eqb x c then Some O else option_map S (index_of c s')
  end.

(** [s.find(c, start)] for [0 <= start]: the lowest index [>= start] that
    holds [c], or [-1]. *)
Definition find (s : str) (c : ascii) (start : Z) : Z :=
  match index_of c (skipn (Z.to_nat start) s) with
  | Some k => (start + Z.of_nat k)%Z
  | None => (-1)%Z
  end.

(** [s[a:b]] and [s[a:]] for indices that are not negative (the source never
    slices with a negative one); Python clips them to the string. *)
Definition slice (s : str) (a b : Z) : str :=
  firstn (Z.to_nat (b - a)) (skipn (Z.to_nat a) s).

Definition slice_from (s : str) (a : Z) : str := skipn (Z.to_nat a) s.

(** [''.join(parts)] *)
Definition join (parts : list str) : str := concat parts.

(** Whitespace of a Python 2 byte string: [\t \n \v \f \r] and the space.
    It is the class [\s] of [re] and what [strip] and [int] skip. *)
Definition is_space (c : ascii) : bool :=
  let n := nat_of_ascii c in ((9 <=? n) && (n <=? 13)) || (n =? 32).

Fixpoint lstrip (s : str) : str :=
  match s with
  | c :: s' => if is_space c then lstrip s' else s
  | [] => []
  end.

Definition rstrip (s : str) : str := rev (lstrip (rev s)).

Definition strip (s : str) : str := rstrip (lstrip s).

(** ** The fragment of [re] that [end_pattern] uses

    A pattern is a sequence of atoms, each a character class taken once or
    under a greedy star.  [re_match] is [pattern.match(s)]: the match is
    anchored at the start of [s] (so the leading [^] adds nothing) and may
    stop anywhere. *)

Inductive atom : Type :=
| One (cls : ascii -> bool)
| Many (cls : ascii -> bool).

Definition regex := list atom.

Fixpoint re_match (r : regex) (s : str) : bool :=
  match r with
  | [] => true
  | One cls :: r' =>
      match s with
      | x :: s' => cls x && re_match r' s'
      | [] => false
      end
  | Many cls :: r' =>
      (fix many (s : str) : bool :=
         match s with
         | x :: s' => (cls x && many s') || re_match r' s
         | [] => re_match r' []
         end) s
  end.

(** Lower-casing as [re.IGNORECASE] does it on byte strings: ASCII only. *)
Definition lower (c : ascii) : ascii :=
  let n := nat_of_ascii c in
  if (65 <=? n) && (n <=? 90) then ascii_of_nat (n + 32) else c.

(** A literal character under [re.IGNORECASE]. *)
Definition lit_i (c : ascii) : ascii -> bool :=
  fun x => Ascii.eqb (lower x) (lower c).

(** [end_pattern = re.compile('^\s*end\s*', re.IGNORECASE)] *)
Definition end_pattern : regex :=
  [Many is_space; One (lit_i "e"); One (lit_i "n"); One (lit_i "d");
   Many is_space].

(** [end_pattern.match(line)], as a truth value. *)
Definition end_pattern_match (line : str) : bool := re_match end_pattern line.

(** ** Decimal numbers: ['%d' % n] and [int(s)] *)

Definition digit_char (d : nat) : ascii := ascii_of_nat (48 + d).

Fixpoint dec_aux (fuel n : nat) (acc : str) : str :=
  match fuel with
  | O => acc
  | S fuel' =>
      let acc' := digit_char (n mod 10) :: acc in
      if n <? 10 then acc' else dec_aux fuel' (n / 10) acc'
  end.

(** The decimal digits of a natural number, most significant first. *)
Definition dec (n : nat) : str := dec_aux (S n) n [].

(** ['%d' % z] *)
Definition fmt_d (z : Z) : str :=
  if (z <? 0)%Z then "-"%char :: dec (Z.to_nat (- z)) else dec (Z.to_nat z).

Definition is_digit (c : ascii) : bool :=
  let n := nat_of_ascii c in (48 <=? n) && (n <=? 57).

Definition digit_val (c : ascii) : Z := Z.of_nat (nat_of_ascii c - 48).

Definition digits_value (ds : str) : Z :=
  fold_left (fun acc c => (10 * acc + digit_val c)%Z) ds 0%Z.

Definition parse_digits (ds : str) : option Z :=
  match ds with
  | [] => None
  | _ :: _ => if forallb is_digit ds then Some (digits_value ds) else None
  end.

(** Python's built-in [int(s)] on a byte string, base ten: surrounding
    whitespace is dropped, one sign is allowed, and what is left must be a
    non-empty run of decimal digits.  [None] stands for [ValueError]. *)
Definition int_literal (s : str) : option Z :=
  match strip s with
  | "+"%char :: ds => parse_digits ds
  | "-"%char :: ds => option_map Z.opp (parse_digits ds)
  | ds => parse_digits ds
  end.

(** ** The world: one connection and the operator console *)

(** What the server does that can be seen from outside, in order. *)
Inductive event : Type :=
| Sent (data : str)      (* connection.send(data) *)
| Flat (text : str)      (* out.print_flat(text) *)
| Info (text : str)      (* out.print_info(text) *)
| Closed.                (* connection.close() *)

(** [inbox] holds what the peer writes, one element per arrival; the peer
    closes its side after the last one.  [entropy] is the byte sequence
    [os.urandom] draws from and [drawn] how much of it is used up.  [wide]
    tells a 64-bit build of the interpreter from a 32-bit one, and [memory]
    is the size of the largest string it can still allocate. *)
Record World : Type := mkWorld {
  inbox : list str;
  trace : list event;
  entropy : nat -> ascii;
  drawn : nat;
  wide : bool;
  memory : Z
}.

Definition emit (e : event) (w : World) : World :=
  mkWorld (inbox w) (trace w ++ [e]) (entropy w) (drawn w) (wide w)
    (memory w).

Definition set_inbox (i : list str) (w : World) : World :=
  mkWorld i (trace w) (entropy w) (drawn w) (wide w) (memory w).

Inductive exn : Type :=
| DisconnectedError
| ValueError
| OverflowError
| MemoryError.

Definition exn_eqb (a b : exn) : bool :=
  match a, b with
  | DisconnectedError, DisconnectedError => true
  | ValueError, ValueError => true
  | OverflowError, OverflowError => true
  | MemoryError, MemoryError => true
  | _, _ => false
  end.

(** A call returns a value, raises, or (for a loop of the model that is cut
    off by its bound) gives no result at all. *)
Inductive outcome (A : Type) : Type :=
| Ok (a : A) (w : World)
| Raise (e : exn) (w : World)
| Stuck.

Arguments Ok {A} a w.
Arguments Raise {A} e w.
Arguments Stuck {A}.

Definition M (A : Type) : Type := World -> outcome A.

Definition ret {A : Type} (a : A) : M A := fun w => Ok a w.

Definition bind {A B : Type} (c : M A) (k : A -> M B) : M B :=
  fun w =>
    match c w with
    | Ok a w' => k a w'
    | Raise e w' => Raise e w'
    | Stuck => Stuck
    end.

Definition raise {A : Type} (e : exn) : M A := fun w => Raise e w.

Definition stuck {A : Type} : M A := fun _ => Stuck.

(** [try: body / except e: handler] *)
Definition try_except {A : Type} (body : M A) (e : exn) (handler : M A) : M A :=
  fun w =>
    match body w with
    | Raise e' w' => if exn_eqb e e' then handler w' else Raise e' w'
    | r => r
    end.

Declare Scope netbyte_scope.
Delimit Scope netbyte_scope with netbyte.
Notation "x <- c ;; k" := (bind c (fun x => k))
  (at level 61, c at next level, right associativity) : netbyte_scope.
Notation "' pat <- c ;; k" := (bind c (fun x => match x with pat => k end))
  (at level 61, pat pattern, c at next level, right associativity)
  : netbyte_scope.
Notation "c ;; k" := (bind c (fun _ => k))
  (at level 61, right associativity) : netbyte_scope.
Local Open Scope netbyte_scope.

(** [connection.send(data)]; a send always goes through in this model. *)
Definition send (data : str) : M unit := fun w => Ok tt (emit (Sent data) w).

(** [connection.recv(bufsize)]: the next arrival, or its first [bufsize]
    bytes when it is longer (the rest stays queued); the empty string once
    the peer has closed. *)
Definition recv (bufsize : Z) : M str :=
  fun w =>
    match inbox w with
    | [] => Ok [] w
    | m :: rest =>
        if (len m <=? bufsize)%Z then Ok m (set_inbox rest w)
        else Ok (slice m 0 bufsize)
                (set_inbox (slice_from m bufsize :: rest) w)
    end.

(** [connection.close()] *)
Definition close : M unit := fun w => Ok tt (emit Closed w).

(** Modelled from the spec: [out.print_flat] of the repository's [output]
    module, which is not among the sources; an operator-facing log event
    whose content is the text. *)
Definition print_flat (text : str) : M unit :=
  fun w => Ok tt (emit (Flat text) w).

(** Modelled from the spec: [out.print_info] of the repository's [output]
    module, which is not among the sources; an operator-facing log event
    whose content is the text. *)
Definition print_info (text : str) : M unit :=
  fun w => Ok tt (emit (Info text) w).

(** [PY_SSIZE_T_MAX] of the build. *)
Definition ssize_max (w : World) : Z :=
  if wide w then (2 ^ 63 - 1)%Z else (2 ^ 31 - 1)%Z.

(** The largest string that can be allocated.  A request no larger than
    the buffer of [recv] is always served, as the reads of the model are. *)
Definition room (w : World) : Z := Z.max 4096 (memory w).

(** [os.urandom(n)]: the next [n] bytes of the entropy.  A count that does
    not fit the build's [ssize_t] raises [OverflowError], a negative one
    [ValueError], and one the interpreter cannot allocate [MemoryError]. *)
Definition urandom (n : Z) : M str :=
  fun w =>
    if (ssize_max w <? n)%Z then Raise OverflowError w
    else if (n <? 0)%Z then Raise ValueError w
    else if (room w <? n)%Z then Raise MemoryError w
    else
      Ok (map (entropy w) (seq (drawn w) (Z.to_nat n)))
         (mkWorld (inbox w) (trace w) (entropy w) (drawn w + Z.to_nat n)
            (wide w) (memory w)).

(** [int(line)], raising [ValueError] on a malformed literal. *)
Definition int (line : str) : M Z :=
  match int_literal line with
  | Some z => ret z
  | None => raise ValueError
  end.

(** ** [run_test] *)

(** The inner [while end_i != -1 and not done] loop of [run_test].  Every
    turn moves [start_i] past one newline of [full_message], so a bound of
    [len(full_message) + 1] turns is never reached ([consume_lines_total]). *)
Fixpoint consume_lines (bound : nat) (data_handler : str -> M unit)
    (full_message : str) (start_i end_i : Z) (done : bool) : M (Z * bool) :=
  if negb (end_i =? -1)%Z && negb done then
    match bound with
    | O => stuck
    | S bound' =>
        let line := slice full_message start_i (end_i + 1) in
        done <- (if end_pattern_match line then ret true
                 else data_handler line ;; ret done) ;;
        let start_i := (end_i + 1)%Z in
        let end_i := find full_message nl start_i in
        consume_lines bound' data_handler full_message start_i end_i done
    end
  else ret (start_i, done).

(** The variables of [run_test] that live across turns of its outer loop. *)
Record locals : Type := mkLocals {
  initial_message : str;
  messages : list str;
  remaining_message : str;
  done : bool
}.

(** One turn of the outer [while not done] loop. *)
Definition loop_body (prompt : str) (data_handler : str -> M unit)
    (st : locals) : M locals :=
  (if truthy prompt then send prompt else ret tt) ;;
  '(message, initial_message) <-
     (if truthy (initial_message st) then ret (initial_message st, [])
      else message <- recv 4096 ;; ret (message, initial_message st)) ;;
  messages <-
     (if truthy message then ret (messages st ++ [message])
      else raise DisconnectedError) ;;
  if contains nl message then
    let start_i := 0%Z in
    let full_message := join messages in
    let end_i := find full_message nl 0 in
    '(start_i, done) <-
       consume_lines (S (length full_message)) data_handler
         full_message start_i end_i (done st) ;;
    if (start_i <? len message - 1)%Z then
      if done then
        ret (mkLocals initial_message messages
               (slice_from full_message start_i) done)
      else
        ret (mkLocals initial_message [slice_from full_message start_i]
               (remaining_message st) done)
    else
      ret (mkLocals initial_message [] (remaining_message st) done)
  else
    ret (mkLocals initial_message messages (remaining_message st) (done st)).

(** The outer loop.  Every turn either uses up the carried-over message or
    takes bytes from the inbox, or else raises. *)
Fixpoint run_loop (bound : nat) (prompt : str) (data_handler : str -> M unit)
    (st : locals) : M str :=
  if done st then ret (remaining_message st)
  else
    match bound with
    | O => stuck
    | S bound' =>
        st' <- loop_body prompt data_handler st ;;
        run_loop bound' prompt data_handler st'
    end.

(** Turns the outer loop can take before the inbox is used up. *)
Definition turns (w : World) : nat :=
  length (join (inbox w)) + length (inbox w) + 2.

Definition run_test (test_name prompt : str) (data_handler : str -> M unit)
    (initial_message : str) : M str :=
  print_flat (test_name ++ py ":") ;;
  send (test_name ++ py ":" ++ [nl] ++ py "Type 'end' to exit" ++ [nl]) ;;
  fun w =>
    run_loop (turns w) prompt data_handler
      (mkLocals initial_message [] [] false) w.

(** ** The three handlers *)

Definition echo_handler (line : str) : M unit :=
  print_flat (py "Received: " ++ rstrip line) ;;
  send line.

Definition hex_handler (line : str) : M unit :=
  hex_length <-
    try_except
      (hex_length <- int line ;;
       if (hex_length <=? 0)%Z then raise ValueError else ret hex_length)
      ValueError
      (send (py "You must enter a number larger than 0. Defaulting to 10."
             ++ [nl]) ;;
       ret 10%Z) ;;
  rnd <- urandom (hex_length - 1) ;;
  let hex_string := rnd ++ [nl] in
  print_flat (py "Sending: " ++ hex_string) ;;
  send hex_string.

Definition byte_count_handler (line : str) : M unit :=
  let size := len line in
  let response := py "Received " ++ fmt_d size ++ py " bytes." in
  print_flat response ;;
  send (response ++ [nl]).

(** ** The session *)

(** [VERSION] is imported from the package and is taken as a parameter;
    [addr] is the peer's [(host, port)]. *)
Definition handle_connection (VERSION : str) (addr : str * Z) : M unit :=
  send (py "Netbyte Test Server v" ++ VERSION ++ [nl]) ;;
  remaining_msg <- run_test (py "Echo Test") [] echo_handler [] ;;
  remaining_msg <- run_test (py "Hex Test") (py "Number of bytes to send:")
                     hex_handler remaining_msg ;;
  remaining_msg <- run_test (py "Byte Count Test") (py "Bytes to count:")
                     byte_count_handler remaining_msg ;;
  (if truthy remaining_msg then
     let info := py "Received unexpected data after all tests ended: "
                 ++ remaining_msg in
     print_info info ;;
     send info
   else ret tt) ;;
  send (py "Closing connection to test server" ++ [nl]) ;;
  close ;;
  print_info (py "Closed connection to " ++ fst addr ++ py ":"
              ++ fmt_d (snd addr)).

(** What [launch_testserver] does with one accepted connection: the body of
    its accept loop.  The branch for [socket.error], which logs and does
    not close the connection, is left out: [send] and [recv] never fail in
    this model, so nothing here is about a session on a broken socket.  Any
    other exception, such as the ones [os.urandom] raises, goes up. *)
Definition serve_connection (VERSION : str) (addr : str * Z) : M unit :=
  try_except
    (print_info (py "Connection established from " ++ fst addr ++ py ":"
                 ++ fmt_d (snd addr)) ;;
     handle_connection VERSION addr)
    DisconnectedError
    (print_info (py "Connection closed.") ;;
     close).

(** ** Complete lines *)

(** A complete line: its first newline is its last byte. *)
Fixpoint is_line (s : str) : bool :=
  match s with
  | [] => false
  | c :: s' =>
      if Ascii.eqb c nl then match s' with [] => true | _ :: _ => false end
      else is_line s'
  end.

(** A handler that looks at complete lines only and ignores anything else. *)
Definition only_lines (data_handler : str -> M unit) : str -> M unit :=
  fun line => if is_line line then data_handler line else ret tt.

(** ** Notions used in the statements *)

(** What the pattern accepts: after the leading whitespace the line goes on
    with [e], [n], [d] in either case; nothing is asked of what follows. *)
Definition starts_with_end (s : str) : bool :=
  match lstrip s with
  | c1 :: c2 :: c3 :: _ => lit_i "e" c1 && lit_i "n" c2 && lit_i "d" c3
  | _ => false
  end.

(** Several events in a row. *)
Definition emit_all (evs : list event) (w : World) : World :=
  fold_left (fun w e => emit e w) evs w.

(** The second half of [loop_body], from [if '\n' in message] on, once
    [message] is appended to [messages]. *)
Definition frame (data_handler : str -> M unit) (st : locals)
    (initial_message : str) (messages : list str) (message : str)
    : M locals :=
  if contains nl message then
    '(start_i, done) <-
       consume_lines (S (length (join messages))) data_handler
         (join messages) 0 (find (join messages) nl 0) (done st) ;;
    if (start_i <? len message - 1)%Z then
      if done then
        ret (mkLocals initial_message messages
               (slice_from (join messages) start_i) done)
      else
        ret (mkLocals initial_message [slice_from (join messages) start_i]
               (remaining_message st) done)
    else
      ret (mkLocals initial_message [] (remaining_message st) done)
  else
    ret (mkLocals initial_message messages (remaining_message st) (done st)).

(** What is kept of the bytes after the termination line. *)
Definition kept (rest : str) : str :=
  if 2 <=? length rest then rest else [].

(** ["%s:\nType 'end' to exit\n" % test_name] *)
Definition header (test_name : str) : str :=
  test_name ++ py ":" ++ [nl] ++ py "Type 'end' to exit" ++ [nl].

(** What [run_test] shows before the first line is handled, when the first
    turn of its loop is also the last. *)
Definition opening (test_name prompt : str) : list event :=
  [Flat (test_name ++ py ":"); Sent (header test_name)]
  ++ (if truthy prompt then [Sent prompt] else []).

(** The whole session as the peer sees and the operator reads it, when the
    three termination lines arrive in one piece. *)
Definition batch_session (VERSION : str) (addr : str * Z) : list event :=
  [Sent (py "Netbyte Test Server v" ++ VERSION ++ [nl])]
  ++ opening (py "Echo Test") []
  ++ opening (py "Hex Test") (py "Number of bytes to send:")
  ++ opening (py "Byte Count Test") (py "Bytes to count:")
  ++ [Sent (py "Closing connection to test server" ++ [nl]);
      Closed;
      Info (py "Closed connection to " ++ fst addr ++ py ":"
            ++ fmt_d (snd addr))].

(** The world once the prompt of a turn, if there is one, has been sent. *)
Definition after_prompt (prompt : str) (w : World) : World :=
  if truthy prompt then emit (Sent prompt) w else w.

(** The world in which the first sub-test of a session starts. *)
Definition session_start (VERSION : str) (addr : str * Z) (w : World)
    : World :=
  emit (Sent (py "Netbyte Test Server v" ++ VERSION ++ [nl]))
    (emit (Info (py "Connection established from " ++ fst addr ++ py ":"
                 ++ fmt_d (snd addr))) w).

(** One of the three sub-tests of the session raises [DisconnectedError],
    leaving the world [w'], after those before it have returned. *)
Definition disconnects (VERSION : str) (addr : str * Z) (w w' : World)
    : Prop :=
  let echo := run_test (py "Echo Test") [] echo_handler [] in
  let hex := run_test (py "Hex Test") (py "Number of bytes to send:")
               hex_handler in
  let count := run_test (py "Byte Count Test") (py "Bytes to count:")
                 byte_count_handler in
  echo (session_start VERSION addr w) = Raise DisconnectedError w'
  \/ (exists r1 w1,
        echo (session_start VERSION addr w) = Ok r1 w1
        /\ hex r1 w1 = Raise DisconnectedError w')
  \/ (exists r1 w1 r2 w2,
        echo (session_start VERSION addr w) = Ok r1 w1
        /\ hex r1 w1 = Ok r2 w2
        /\ count r2 w2 = Raise DisconnectedError w').

(** [os.urandom] can return [n] bytes in the world [w]. *)
Definition served (n : Z) (w : World) : bool :=
  ((0 <=? n) && (n <=? ssize_max w) && (n <=? room w))%Z.

(** The reply of [hex_handler] for a count of [N]: what [os.urandom(N - 1)]
    returns in the world [w], and a newline. *)
Definition hex_string (w : World) (N : Z) : str :=
  map (entropy w) (seq (drawn w) (Z.to_nat (N - 1))) ++ [nl].

(** The message sent when the count is missing or not positive. *)
Definition warning : str :=
  py "You must enter a number larger than 0. Defaulting to 10." ++ [nl].

(** A handler that returns and leaves the inbox alone, as the echo and
    byte-count handlers do (the hex handler raises when [os.urandom]
    does). *)
Definition quiet (h : str -> M unit) : Prop :=
  forall line w, exists w', h line w = Ok tt w' /\ inbox w' = inbox w.

(** What is left for the outer loop to use up. *)
Definition backlog (st : locals) (w : World) : nat :=
  (if truthy (initial_message st) then 1 else 0)
  + length (join (inbox w)) + length (inbox w).

(** A handler that only logs the line it is given, with [out.print_info],
    which [run_test] itself never calls. *)
Definition log_line (line : str) : M unit := print_info line.

(** The world a call leaves, when it returns or raises. *)
Definition final {A : Type} (o : outcome A) : option World :=
  match o with
  | Ok _ w => Some w
  | Raise _ w => Some w
  | Stuck => None
  end.

(** Every [Info] event of [w] is an old one or shows a complete line. *)
Definition lines_logged (old : list event) (w : World) : Prop :=
  forall l, In (Info l) (trace w) -> In (Info l) old \/ is_line l = true.

(** A world with the given arrivals, nothing shown yet, a source of random
    bytes that gives zeros, on a 64-bit build with a mebibyte to allocate. *)
Definition fresh_world (arrivals : list str) : World :=
  mkWorld arrivals [] (fun _ => "000"%char) 0 true 1048576.

(** ["end\n"] *)
Definition end_line : str := py "end" ++ [nl].

(** The events of the world a call leaves. *)
Definition trace_of {A : Type} (o : outcome A) : list event :=
  match final o with
  | Some w => trace w
  | None => []
  end.

(** ** Straight-line scripts the loops are compared with *)

(** The handler called on each line in turn. *)
Fixpoint deliver (h : str -> M unit) (lines : list str) : M unit :=
  match lines with
  | [] => ret tt
  | l :: ls => h l ;; deliver h ls
  end.

(** [n] turns that only prompt and read. *)
Fixpoint reads (prompt : str) (n : nat) : M unit :=
  match n with
  | O => ret tt
  | S k =>
      (if truthy prompt then send prompt else ret tt) ;;
      _ <- recv 4096 ;;
      reads prompt k
  end.

(** For each group of chunks: one prompt and one read per chunk, then the
    handler called once on the chunks put together. *)
Fixpoint serve_groups (prompt : str) (h : str -> M unit)
    (groups : list (list str)) : M unit :=
  match groups with
  | [] => ret tt
  | g :: gs =>
      reads prompt (length g) ;;
      h (concat g) ;;
      serve_groups prompt h gs
  end.

(** A line that is complete and does not end the sub-test. *)
Definition plain_line (l : str) : Prop :=
  is_line l = true /\ end_pattern_match l = false.

(** An arrival that one [recv] returns whole. *)
Definition one_read (c : str) : Prop :=
  truthy c = true /\ (len c <= 4096)%Z.

(** Chunks, each read whole, that together make one plain line. *)
Definition line_in_chunks (g : list str) : Prop :=
  Forall one_read g /\ plain_line (concat g).

(** A handler that does not touch the inbox when it returns. *)
Definition keeps_inbox (h : str -> M unit) : Prop :=
  forall line w a w', h line w = Ok a w' -> inbox w' = inbox w.

(** What was sent to the peer, in order. *)
Definition sent_data (evs : list event) : list str :=
  flat_map (fun e => match e with Sent data => [data] | _ => [] end) evs.

(** ** Notions for whole sessions *)

(** What a session shows after its last sub-test when [trailing] is left
    over. *)
Definition session_end (addr : str * Z) (trailing : str) : list event :=
  (if truthy trailing then
     [Info (py "Received unexpected data after all tests ended: "
            ++ trailing);
      Sent (py "Received unexpected data after all tests ended: "
            ++ trailing)]
   else [])
  ++ [Sent (py "Closing connection to test server" ++ [nl]);
      Closed;
      Info (py "Closed connection to " ++ fst addr ++ py ":"
            ++ fmt_d (snd addr))].

(** The three openings of a session whose termination lines arrive in one
    piece, after the banner. *)
Definition batch_openings (VERSION : str) : list event :=
  [Sent (py "Netbyte Test Server v" ++ VERSION ++ [nl])]
  ++ opening (py "Echo Test") []
  ++ opening (py "Hex Test") (py "Number of bytes to send:")
  ++ opening (py "Byte Count Test") (py "Bytes to count:").

(** A chunk that one [recv] returns whole and that holds no newline. *)
Definition partial_chunk (c : str) : Prop :=
  one_read c /\ contains nl c = false.

(** * Properties *)

(** The call ended in the world it started from. *)
Ltac same_world := cbn; intros [= <-]; assumption.

(** ** The monad *)

Lemma bind_ext {A B : Type} (c : M A) (k k' : A -> M B) (w : World) :
  (forall a w', k a w' = k' a w') -> bind c k w = bind c k' w.
Proof.
  intros Hk. unfold bind. destruct (c w); auto.
Qed.

Lemma bind_Ok {A B : Type} (c : M A) (k : A -> M B) (w w' : World) (a : A) :
  c w = Ok a w' -> bind c k w = k a w'.
Proof.
  intros Hc. unfold bind. now rewrite Hc.
Qed.

Lemma bind_Raise {A B : Type} (c : M A) (k : A -> M B) (w w' : World) e :
  c w = Raise e w' -> bind c k w = Raise e w'.
Proof.
  intros Hc. unfold bind. now rewrite Hc.
Qed.

(** ** [find], slices and complete lines *)

Lemma index_of_bound (c : ascii) (s : str) (k : nat) :
  index_of c s = Some k -> k < length s.
Proof.
  revert k. induction s as [|x s IH]; simpl; intros k Hk; [discriminate|].
  destruct (Ascii.eqb x c).
  - injection Hk as <-. lia.
  - destruct (index_of c s) as [j|]; simpl in Hk; [|discriminate].
    injection Hk as <-. specialize (IH j eq_refl). lia.
Qed.

Lemma index_of_is_line (s : str) (k : nat) :
  index_of nl s = Some k -> is_line (firstn (S k) s) = true.
Proof.
  revert k. induction s as [|x s IH]; intros k Hk; [discriminate|].
  cbn [index_of] in Hk. cbn [firstn is_line].
  destruct (Ascii.eqb x nl).
  - injection Hk as <-. reflexivity.
  - destruct (index_of nl s) as [j|]; simpl in Hk; [|discriminate].
    injection Hk as <-. now apply IH.
Qed.

Lemma find_range (s : str) (start e : Z) :
  (0 <= start)%Z -> find s nl start = e -> e <> (-1)%Z ->
  (start <= e < len s)%Z.
Proof.
  unfold find, len. intros Hs He Hne.
  destruct (index_of nl (skipn (Z.to_nat start) s)) as [k|] eqn:Hk;
    [|congruence].
  apply index_of_bound in Hk. rewrite length_skipn in Hk. lia.
Qed.

Lemma find_slice_is_line (s : str) (start e : Z) :
  (0 <= start)%Z -> find s nl start = e -> e <> (-1)%Z ->
  is_line (slice s start (e + 1)) = true.
Proof.
  unfold find, slice. intros Hs He Hne.
  destruct (index_of nl (skipn (Z.to_nat start) s)) as [k|] eqn:Hk;
    [|congruence].
  subst e. replace (Z.to_nat (start + Z.of_nat k + 1 - start)) with (S k) by lia.
  now apply index_of_is_line.
Qed.

Lemma is_line_spec (s : str) :
  is_line s = true <-> exists body, s = body ++ [nl] /\ ~ In nl body.
Proof.
  induction s as [|x s IH]; cbn [is_line].
  - split; [discriminate|]. intros [[|b body] [H _]]; discriminate.
  - destruct (Ascii.eqb_spec x nl) as [->|Hx].
    + destruct s as [|y s].
      * split; [|reflexivity]. intros _. now exists [].
      * split; [discriminate|]. intros [[|b body] [H Hn]]; [discriminate|].
        injection H as <- _. exfalso. apply Hn. now left.
    + rewrite IH. split.
      * intros [body [-> Hn]]. exists (x :: body). split; [reflexivity|].
        intros [E|E]; [congruence|auto].
      * intros [[|b body] [H Hn]].
        -- injection H as -> _. congruence.
        -- injection H as <- ->. exists body. split; [reflexivity|].
           intros E. apply Hn. now right.
Qed.

(** ** The handler sees complete lines only *)

Lemma consume_lines_only_lines (bound : nat) (h : str -> M unit)
    (full : str) (start_i end_i : Z) (d : bool) (w : World) :
  (0 <= start_i)%Z -> find full nl start_i = end_i ->
  consume_lines bound h full start_i end_i d w
  = consume_lines bound (only_lines h) full start_i end_i d w.
Proof.
  revert start_i end_i d w.
  induction bound as [|bound IH]; intros start_i end_i d w Hs He;
    cbn [consume_lines].
  - reflexivity.
  - destruct (Z.eqb_spec end_i (-1)) as [E|E]; cbn [negb andb]; [reflexivity|].
    destruct d; cbn [negb]; [reflexivity|].
    pose proof (find_range _ _ _ Hs He E) as Hr.
    pose proof (find_slice_is_line _ _ _ Hs He E) as Hl.
    unfold only_lines at 1. rewrite Hl.
    apply bind_ext. intros d' w'. apply IH; [lia|reflexivity].
Qed.

Lemma loop_body_only_lines (prompt : str) (h : str -> M unit) (st : locals)
    (w : World) :
  loop_body prompt h st w = loop_body prompt (only_lines h) st w.
Proof.
  unfold loop_body.
  apply bind_ext. intros _ w1.
  apply bind_ext. intros [message im] w2.
  apply bind_ext. intros msgs w3.
  destruct (contains nl message); [|reflexivity].
  unfold bind. rewrite <- consume_lines_only_lines; [reflexivity|lia|reflexivity].
Qed.

Lemma run_loop_only_lines (bound : nat) (prompt : str) (h : str -> M unit)
    (st : locals) (w : World) :
  run_loop bound prompt h st w = run_loop bound prompt (only_lines h) st w.
Proof.
  revert st w. induction bound as [|bound IH]; intros st w; cbn [run_loop].
  - reflexivity.
  - destruct (done st); [reflexivity|].
    unfold bind. rewrite <- loop_body_only_lines.
    destruct (loop_body prompt h st w); auto.
Qed.

(** ** The termination pattern *)

Lemma re_match_trailing_star (cls : ascii -> bool) (s : str) :
  re_match [Many cls] s = true.
Proof.
  induction s as [|x s IH]; [reflexivity|].
  cbn. apply orb_true_r.
Qed.

Lemma space_is_not_e (c : ascii) : is_space c = true -> lit_i "e" c = false.
Proof.
  destruct c as [[] [] [] [] [] [] [] []]; cbv; congruence.
Qed.

Lemma end_pattern_match_unfold (x : ascii) (s : str) :
  end_pattern_match (x :: s)
  = (is_space x && end_pattern_match s)
    || re_match [One (lit_i "e"); One (lit_i "n"); One (lit_i "d");
                 Many is_space] (x :: s).
Proof. reflexivity. Qed.

Lemma end_pattern_match_starts_with_end (line : str) :
  end_pattern_match line = starts_with_end line.
Proof.
  unfold starts_with_end.
  induction line as [|x s IH]; [reflexivity|].
  rewrite end_pattern_match_unfold. cbn [lstrip].
  destruct (is_space x) eqn:Hx; cbn [andb orb].
  - rewrite IH. cbn [re_match]. rewrite (space_is_not_e _ Hx). cbn.
    apply orb_false_r.
  - cbn [re_match].
    destruct s as [|c2 [|c3 rest]];
      rewrite ?andb_false_r; try reflexivity.
    fold (re_match [Many is_space] rest).
    rewrite re_match_trailing_star, andb_true_r, andb_assoc. reflexivity.
Qed.

Lemma end_pattern_match_length (line : str) :
  end_pattern_match line = true -> 3 <= length line.
Proof.
  rewrite end_pattern_match_starts_with_end. unfold starts_with_end.
  induction line as [|x s IH]; cbn [lstrip]; [discriminate|].
  destruct (is_space x).
  - intros H. specialize (IH H). simpl. lia.
  - destruct s as [|c2 [|c3 rest]]; try discriminate. simpl. lia.
Qed.

(** ** One turn of the outer loop, in two steps *)

Lemma loop_body_frame (prompt : str) (h : str -> M unit) (st : locals) :
  loop_body prompt h st
  = ((if truthy prompt then send prompt else ret tt) ;;
     '(message, initial_message) <-
        (if truthy (initial_message st) then ret (initial_message st, [])
         else message <- recv 4096 ;; ret (message, initial_message st)) ;;
     messages <-
        (if truthy message then ret (messages st ++ [message])
         else raise DisconnectedError) ;;
     frame h st initial_message messages message).
Proof. reflexivity. Qed.

(** A turn that starts from carried-over bytes reads nothing. *)
Lemma loop_body_carried (prompt : str) (h : str -> M unit) (st : locals)
    (w : World) :
  truthy (initial_message st) = true ->
  loop_body prompt h st w
  = frame h st [] (messages st ++ [initial_message st]) (initial_message st)
      (if truthy prompt then emit (Sent prompt) w else w).
Proof.
  intros Hi. rewrite loop_body_frame. unfold bind at 1.
  destruct (truthy prompt); cbn [send ret]; unfold bind at 1;
    rewrite Hi; cbn [ret]; unfold bind at 1; rewrite Hi; reflexivity.
Qed.

(** A turn that reads a non-empty arrival that fits the buffer. *)
Lemma loop_body_read (prompt : str) (h : str -> M unit) (st : locals)
    (w : World) (m : str) (rest : list str) :
  initial_message st = [] -> inbox w = m :: rest ->
  truthy m = true -> (len m <= 4096)%Z ->
  loop_body prompt h st w
  = frame h st [] (messages st ++ [m]) m
      (set_inbox rest (if truthy prompt then emit (Sent prompt) w else w)).
Proof.
  intros Hi Hw Hm Hl. rewrite loop_body_frame. unfold bind at 1.
  assert (Hrecv : forall w1, inbox w1 = m :: rest ->
            recv 4096 w1 = Ok m (set_inbox rest w1)).
  { intros w1 H1. unfold recv. rewrite H1.
    destruct (Z.leb_spec (len m) 4096); [reflexivity|lia]. }
  destruct (truthy prompt); cbn [send ret]; unfold bind at 1;
    rewrite Hi; cbn [truthy]; unfold bind at 1;
    rewrite Hrecv by (cbn; exact Hw);
    cbn [ret]; unfold bind; rewrite Hm; reflexivity.
Qed.

(** ** A message that begins with a termination line *)

Lemma is_line_index (line rest : str) :
  is_line line = true ->
  index_of nl (line ++ rest) = Some (length line - 1).
Proof.
  induction line as [|x s IH]; cbn [is_line]; [discriminate|].
  cbn [app index_of]. destruct (Ascii.eqb x nl).
  - destruct s; [reflexivity|discriminate].
  - intros H. rewrite (IH H). destruct s; [discriminate|].
    cbn. f_equal. lia.
Qed.

Lemma is_line_nonempty (line : str) : is_line line = true -> 1 <= length line.
Proof. destruct line; [discriminate|simpl; lia]. Qed.

Lemma is_line_contains (line rest : str) :
  is_line line = true -> contains nl (line ++ rest) = true.
Proof.
  induction line as [|x s IH]; cbn [is_line]; [discriminate|].
  unfold contains in *. cbn [app existsb]. rewrite (Ascii.eqb_sym nl x).
  destruct (Ascii.eqb x nl); [reflexivity|]. exact IH.
Qed.

Lemma truthy_app (line rest : str) :
  1 <= length line -> truthy (line ++ rest) = true.
Proof. destruct line; simpl; [lia|reflexivity]. Qed.

Lemma consume_lines_terminator (bound : nat) (h : str -> M unit)
    (line rest : str) (w : World) :
  is_line line = true -> end_pattern_match line = true ->
  consume_lines (S bound) h (line ++ rest) 0 (find (line ++ rest) nl 0)
    false w
  = Ok (len line, true) w.
Proof.
  intros Hl Hm. pose proof (is_line_nonempty _ Hl) as Hn.
  assert (Hf : find (line ++ rest) nl 0 = (len line - 1)%Z).
  { unfold find. cbn [Z.to_nat skipn]. rewrite (is_line_index _ rest Hl).
    unfold len. lia. }
  rewrite Hf. cbn [consume_lines].
  destruct (Z.eqb_spec (len line - 1) (-1)) as [E|E];
    [unfold len in E; lia|]. cbn [negb andb].
  assert (Hs : slice (line ++ rest) 0 (len line - 1 + 1) = line).
  { unfold slice, len. cbn [Z.to_nat skipn].
    replace (Z.to_nat (Z.of_nat (length line) - 1 + 1 - 0)) with (length line)
      by lia.
    rewrite firstn_app, Nat.sub_diag, firstn_all. cbn. apply app_nil_r. }
  rewrite Hs, Hm. unfold bind, ret.
  replace (len line - 1 + 1)%Z with (len line) by lia.
  destruct bound; cbn [consume_lines]; rewrite andb_false_r; reflexivity.
Qed.

Lemma frame_terminator (h : str -> M unit) (st : locals) (im line rest : str)
    (w : World) :
  done st = false -> remaining_message st = [] ->
  is_line line = true -> end_pattern_match line = true ->
  exists msgs,
    frame h st im [line ++ rest] (line ++ rest) w
    = Ok (mkLocals im msgs (kept rest) true) w.
Proof.
  intros Hd Hr Hl Hm. unfold frame.
  rewrite (is_line_contains _ rest Hl), Hd.
  cbn [join concat]. rewrite app_nil_r.
  unfold bind. rewrite (consume_lines_terminator _ _ _ _ _ Hl Hm).
  unfold kept, len. rewrite length_app.
  destruct (Nat.leb_spec 2 (length rest)) as [H|H].
  - destruct (Z.ltb_spec (Z.of_nat (length line))
                (Z.of_nat (length line + length rest) - 1)); [|lia].
    eexists. unfold ret, slice_from. rewrite Nat2Z.id.
    rewrite skipn_app, Nat.sub_diag, skipn_all. reflexivity.
  - destruct (Z.ltb_spec (Z.of_nat (length line))
                (Z.of_nat (length line + length rest) - 1)); [lia|].
    eexists. unfold ret. rewrite Hr. reflexivity.
Qed.

Lemma turns_pos (w : World) : exists n, turns w = S n.
Proof. unfold turns. exists (length (join (inbox w)) + length (inbox w) + 1). lia. Qed.

Lemma run_test_carried_terminator (test_name prompt : str)
    (h : str -> M unit) (line rest : str) (w : World) :
  is_line line = true -> end_pattern_match line = true ->
  run_test test_name prompt h (line ++ rest) w
  = Ok (kept rest) (emit_all (opening test_name prompt) w).
Proof.
  intros Hl Hm. unfold run_test, bind at 1 2. cbn [print_flat send].
  match goal with |- run_loop (turns ?w2) _ _ _ _ = _ =>
    destruct (turns_pos w2) as [n ->] end.
  cbn [run_loop done]. unfold bind.
  rewrite loop_body_carried
    by (cbn [initial_message]; apply truthy_app, is_line_nonempty, Hl).
  cbn [messages initial_message app].
  match goal with |- context [frame h ?st [] _ _ ?w1] =>
    destruct (frame_terminator h st [] line rest w1
                eq_refl eq_refl Hl Hm) as [msgs ->] end.
  destruct n; cbn [run_loop done remaining_message ret];
    unfold opening; destruct (truthy prompt); reflexivity.
Qed.

Lemma run_test_read_terminator (test_name prompt : str)
    (h : str -> M unit) (line rest : str) (others : list str) (w : World) :
  inbox w = (line ++ rest) :: others -> (len (line ++ rest) <= 4096)%Z ->
  is_line line = true -> end_pattern_match line = true ->
  run_test test_name prompt h [] w
  = Ok (kept rest) (set_inbox others (emit_all (opening test_name prompt) w)).
Proof.
  intros Hw Hlen Hl Hm. unfold run_test, bind at 1 2. cbn [print_flat send].
  match goal with |- run_loop (turns ?w2) _ _ _ _ = _ =>
    destruct (turns_pos w2) as [n ->] end.
  cbn [run_loop done]. unfold bind.
  rewrite (loop_body_read prompt h (mkLocals [] [] [] false) _
             (line ++ rest) others eq_refl)
    by (cbn; auto using truthy_app, is_line_nonempty).
  cbn [messages app].
  match goal with |- context [frame h ?st [] _ _ ?w1] =>
    destruct (frame_terminator h st [] line rest w1
                eq_refl eq_refl Hl Hm) as [msgs ->] end.
  destruct n; cbn [run_loop done remaining_message ret];
    unfold opening; destruct (truthy prompt); reflexivity.
Qed.

Lemma kept_terminator (line rest : str) :
  end_pattern_match line = true -> kept (line ++ rest) = line ++ rest.
Proof.
  intros Hm. apply end_pattern_match_length in Hm. unfold kept.
  rewrite length_app. destruct (Nat.leb_spec 2 (length line + length rest));
    [reflexivity|lia].
Qed.

(** ** Decimal numbers *)

Lemma digit_char_code (d : nat) :
  d < 10 -> nat_of_ascii (digit_char d) = 48 + d.
Proof.
  intros Hd. unfold digit_char. apply nat_ascii_embedding. lia.
Qed.

Lemma is_digit_digit_char (d : nat) : d < 10 -> is_digit (digit_char d) = true.
Proof.
  intros Hd. unfold is_digit. rewrite (digit_char_code d Hd).
  apply andb_true_iff. split; apply Nat.leb_le; lia.
Qed.

Lemma digit_val_digit_char (d : nat) :
  d < 10 -> digit_val (digit_char d) = Z.of_nat d.
Proof.
  intros Hd. unfold digit_val. rewrite (digit_char_code d Hd). f_equal. lia.
Qed.

Lemma digits_value_snoc (ds : str) (c : ascii) :
  digits_value (ds ++ [c]) = (10 * digits_value ds + digit_val c)%Z.
Proof. unfold digits_value. now rewrite fold_left_app. Qed.

Lemma dec_aux_acc (fuel n : nat) (acc : str) :
  dec_aux fuel n acc = dec_aux fuel n [] ++ acc.
Proof.
  revert n acc. induction fuel as [|fuel IH]; intros n acc; cbn [dec_aux].
  - reflexivity.
  - destruct (n <? 10); [reflexivity|].
    rewrite (IH _ (_ :: acc)), (IH _ [_]), <- app_assoc. reflexivity.
Qed.

Lemma dec_aux_digits (fuel n : nat) :
  n < fuel ->
  dec_aux fuel n [] <> []
  /\ forallb is_digit (dec_aux fuel n []) = true
  /\ digits_value (dec_aux fuel n []) = Z.of_nat n.
Proof.
  revert n. induction fuel as [|fuel IH]; intros n Hn; [lia|].
  cbn [dec_aux].
  pose proof (Nat.mod_upper_bound n 10 ltac:(lia)) as Hm.
  destruct (Nat.ltb_spec n 10) as [Hlt|Hge].
  - rewrite (Nat.mod_small n 10 Hlt).
    split; [discriminate|]. split.
    + cbn [forallb]. now rewrite (is_digit_digit_char n Hlt).
    + unfold digits_value. cbn [fold_left].
      rewrite (digit_val_digit_char n Hlt). lia.
  - assert (Hq : n / 10 < fuel).
    { pose proof (Nat.div_lt n 10 ltac:(lia) ltac:(lia)). lia. }
    destruct (IH (n / 10) Hq) as (Hne & Hd & Hv).
    rewrite dec_aux_acc. split; [|split].
    + intros E. apply app_eq_nil in E. tauto.
    + rewrite forallb_app, Hd. cbn [forallb].
      now rewrite (is_digit_digit_char (n mod 10) Hm).
    + rewrite digits_value_snoc, Hv, (digit_val_digit_char (n mod 10) Hm).
      pose proof (Nat.div_mod_eq n 10). lia.
Qed.

Lemma dec_digits (n : nat) :
  dec n <> [] /\ forallb is_digit (dec n) = true
  /\ digits_value (dec n) = Z.of_nat n.
Proof. apply dec_aux_digits. lia. Qed.

Lemma fmt_d_len (s : str) : fmt_d (len s) = dec (length s).
Proof.
  unfold fmt_d, len. destruct (Z.ltb_spec (Z.of_nat (length s)) 0); [lia|].
  now rewrite Nat2Z.id.
Qed.

(** ** [strip] and [int] on a padded number *)

Lemma digit_not_space (c : ascii) : is_digit c = true -> is_space c = false.
Proof.
  unfold is_digit, is_space. intros H.
  apply andb_true_iff in H as [H1 H2].
  apply Nat.leb_le in H1. apply Nat.leb_le in H2.
  apply orb_false_iff. split.
  - apply andb_false_iff. right. apply Nat.leb_gt. lia.
  - apply Nat.eqb_neq. lia.
Qed.

Lemma lstrip_spaces (ws s : str) :
  forallb is_space ws = true -> lstrip (ws ++ s) = lstrip s.
Proof.
  induction ws as [|c ws IH]; cbn [forallb app lstrip]; [reflexivity|].
  intros H. apply andb_true_iff in H as [-> H]. now apply IH.
Qed.

Lemma lstrip_head (c : ascii) (s : str) :
  is_space c = false -> lstrip (c :: s) = c :: s.
Proof. intros H. cbn [lstrip]. now rewrite H. Qed.

Lemma rstrip_spaces (s ws : str) :
  forallb is_space ws = true -> rstrip (s ++ ws) = rstrip s.
Proof.
  intros H. unfold rstrip. rewrite rev_app_distr, lstrip_spaces; [reflexivity|].
  apply forallb_forall. intros x Hx. apply in_rev in Hx.
  rewrite forallb_forall in H. now apply H.
Qed.

Lemma rstrip_last (s : str) (c : ascii) :
  is_space c = false -> rstrip (s ++ [c]) = s ++ [c].
Proof.
  intros H. unfold rstrip. rewrite rev_app_distr. cbn [rev app].
  rewrite (lstrip_head c (rev s) H).
  cbn [rev]. now rewrite rev_involutive.
Qed.

Lemma strip_padded (ws1 ds ws2 : str) :
  forallb is_space ws1 = true -> forallb is_space ws2 = true ->
  ds <> [] -> forallb is_digit ds = true ->
  strip (ws1 ++ ds ++ ws2) = ds.
Proof.
  intros H1 H2 Hne Hd. unfold strip.
  rewrite (lstrip_spaces ws1 _ H1).
  rewrite forallb_forall in Hd.
  destruct ds as [|d ds]; [congruence|].
  cbn [app]. rewrite lstrip_head by (apply digit_not_space, Hd; now left).
  change (d :: ds ++ ws2) with ((d :: ds) ++ ws2).
  rewrite (rstrip_spaces _ ws2 H2).
  destruct (exists_last Hne) as (body & c & E). rewrite E.
  apply rstrip_last, digit_not_space, Hd. rewrite E.
  apply in_or_app. right. now left.
Qed.

Lemma int_literal_unsigned (s : str) (d : ascii) (ds : str) :
  strip s = d :: ds -> is_digit d = true ->
  int_literal s = parse_digits (d :: ds).
Proof.
  intros Hs Hd. unfold int_literal. rewrite Hs.
  destruct d as [[] [] [] [] [] [] [] []]; try reflexivity;
    cbv in Hd; discriminate.
Qed.

Lemma int_literal_padded (ws1 ds ws2 : str) :
  forallb is_space ws1 = true -> forallb is_space ws2 = true ->
  ds <> [] -> forallb is_digit ds = true ->
  int_literal (ws1 ++ ds ++ ws2) = Some (digits_value ds).
Proof.
  intros H1 H2 Hne Hd.
  pose proof (strip_padded ws1 ds ws2 H1 H2 Hne Hd) as Hs.
  destruct ds as [|d ds]; [congruence|].
  rewrite (int_literal_unsigned _ d ds Hs)
    by (cbn [forallb] in Hd; now apply andb_true_iff in Hd).
  unfold parse_digits. now rewrite Hd.
Qed.

Lemma int_literal_dec (n : nat) : int_literal (dec n) = Some (Z.of_nat n).
Proof.
  destruct (dec_digits n) as (Hne & Hd & Hv).
  pose proof (int_literal_padded [] (dec n) [] eq_refl eq_refl Hne Hd) as H.
  cbn [app] in H. rewrite app_nil_r in H. now rewrite H, Hv.
Qed.

(** ** The handlers' replies *)



Lemma ssize_max_large (w : World) : (2 ^ 31 - 1 <= ssize_max w)%Z.
Proof. unfold ssize_max. destruct (wide w); lia. Qed.

Lemma served_small (n : Z) (w : World) :
  (0 <= n <= 4096)%Z -> served n w = true.
Proof.
  intros Hn. unfold served, room. pose proof (ssize_max_large w).
  repeat (apply andb_true_iff; split); apply Z.leb_le; lia.
Qed.

Lemma urandom_served (n : Z) (w : World) :
  served n w = true ->
  urandom n w
  = Ok (map (entropy w) (seq (drawn w) (Z.to_nat n)))
      (mkWorld (inbox w) (trace w) (entropy w) (drawn w + Z.to_nat n)
         (wide w) (memory w)).
Proof.
  unfold served, urandom. intros H.
  apply andb_true_iff in H as [H H3]. apply andb_true_iff in H as [H1 H2].
  apply Z.leb_le in H1, H2, H3.
  destruct (Z.ltb_spec (ssize_max w) n); [lia|].
  destruct (Z.ltb_spec n 0); [lia|].
  destruct (Z.ltb_spec (room w) n); [lia|]. reflexivity.
Qed.

Lemma urandom_refused (n : Z) (w : World) :
  (0 <= n)%Z -> served n w = false ->
  exists e,
    urandom n w = Raise e w /\ (e = OverflowError \/ e = MemoryError).
Proof.
  unfold served, urandom. intros Hn H.
  destruct (Z.ltb_spec (ssize_max w) n); [eauto|].
  destruct (Z.ltb_spec n 0); [lia|].
  destruct (Z.ltb_spec (room w) n); [eauto|].
  exfalso. revert H. apply not_false_iff_true.
  repeat (apply andb_true_iff; split); apply Z.leb_le; lia.
Qed.

(** The count the handler settles on is parsed and positive: no warning. *)
Lemma hex_handler_parsed (line : str) (N : Z) (w : World) :
  int_literal line = Some N -> (0 < N)%Z ->
  hex_handler line w
  = (rnd <- urandom (N - 1) ;;
     print_flat (py "Sending: " ++ rnd ++ [nl]) ;;
     send (rnd ++ [nl])) w.
Proof.
  intros Hi HN. unfold hex_handler.
  match goal with |- bind ?c _ _ = _ =>
    assert (Ht : c w = Ok N w) end.
  { unfold try_except, int, bind. rewrite Hi. cbn [ret].
    destruct (Z.leb_spec N 0) as [H|H]; [lia|]. reflexivity. }
  rewrite (bind_Ok _ _ w w N Ht). reflexivity.
Qed.


(** A parsed, positive count that [os.urandom] does not serve: the error
    goes up from the handler, and nothing is sent or shown. *)
Lemma hex_handler_refused (line : str) (N : Z) (w : World) :
  int_literal line = Some N -> (0 < N)%Z -> served (N - 1) w = false ->
  exists e,
    hex_handler line w = Raise e w /\ (e = OverflowError \/ e = MemoryError).
Proof.
  intros Hi HN Hs. rewrite (hex_handler_parsed line N w Hi HN).
  destruct (urandom_refused (N - 1) w ltac:(lia) Hs) as (e & He & Hor).
  exists e. split; [|exact Hor]. unfold bind. now rewrite He.
Qed.

Lemma hex_handler_default (line : str) (w : World) :
  int_literal line = None
  \/ (exists N, int_literal line = Some N /\ (N <= 0)%Z) ->
  exists w',
    hex_handler line w = Ok tt w'
    /\ trace w'
       = trace w ++ [Sent warning;
                     Flat (py "Sending: " ++ hex_string w 10);
                     Sent (hex_string w 10)].
Proof.
  intros Hi.
  assert (Hu : forall w1, urandom (10 - 1) w1
                 = Ok (map (entropy w1) (seq (drawn w1) (Z.to_nat (10 - 1))))
                     (mkWorld (inbox w1) (trace w1) (entropy w1)
                        (drawn w1 + Z.to_nat (10 - 1)) (wide w1) (memory w1)))
    by (intros w1; apply urandom_served, served_small; lia).
  unfold hex_handler, try_except, int, bind.
  destruct Hi as [Hi|(N & Hi & HN)]; rewrite Hi.
  - cbn [raise exn_eqb send ret]. rewrite Hu. cbn [print_flat send].
    eexists. split; [reflexivity|]. cbn [trace emit].
    rewrite <- !app_assoc. reflexivity.
  - cbn [ret]. destruct (Z.leb_spec N 0) as [H|H]; [|lia].
    cbn [raise exn_eqb send ret]. rewrite Hu. cbn [print_flat send].
    eexists. split; [reflexivity|]. cbn [trace emit].
    rewrite <- !app_assoc. reflexivity.
Qed.

Lemma hex_handler_keeps_inbox : keeps_inbox hex_handler.
Proof.
  intros line w a w'.
  destruct (int_literal line) as [N|] eqn:Hi;
    [destruct (Z.ltb_spec 0 N) as [HN|HN]|].
  - destruct (served (N - 1) w) eqn:Hs.
    + rewrite (hex_handler_parsed line N w Hi HN). unfold bind.
      rewrite (urandom_served (N - 1) w Hs). cbn [print_flat send].
      intros [= _ <-]. reflexivity.
    + destruct (hex_handler_refused line N w Hi HN Hs) as (e & -> & _).
      discriminate.
  - destruct (hex_handler_default line w) as (w1 & E & _); [eauto|].
    revert E. unfold hex_handler, try_except, int, bind. rewrite Hi. cbn [ret].
    destruct (Z.leb_spec N 0); [|lia]. cbn [raise exn_eqb send ret].
    rewrite (urandom_served (10 - 1)) by (apply served_small; lia).
    cbn [print_flat send]. intros _ [= _ <-]. reflexivity.
  - unfold hex_handler, try_except, int, bind. rewrite Hi.
    cbn [raise exn_eqb send ret].
    rewrite (urandom_served (10 - 1)) by (apply served_small; lia).
    cbn [print_flat send]. intros [= _ <-]. reflexivity.
Qed.

(** ** The loops end within their bounds *)

Section Totality.

(** Any handler that returns and leaves the inbox alone. *)
Variable h : str -> M unit.
Hypothesis h_quiet : quiet h.

Lemma consume_lines_total (bound : nat) (full : str) (start_i end_i : Z)
    (d : bool) (w : World) :
  (0 <= start_i)%Z -> find full nl start_i = end_i ->
  (len full - start_i < Z.of_nat bound)%Z ->
  exists r w',
    consume_lines bound h full start_i end_i d w = Ok r w'
    /\ inbox w' = inbox w.
Proof.
  revert start_i end_i d w.
  induction bound as [|bound IH]; intros start_i end_i d w Hs He Hb;
    cbn [consume_lines];
    (destruct (Z.eqb_spec end_i (-1)) as [E|E]; cbn [negb andb];
     [now eexists _, _|]);
    (destruct d; cbn [negb]; [now eexists _, _|]);
    pose proof (find_range full start_i end_i Hs He E) as Hr.
  - lia.
  - unfold bind at 1.
    destruct (end_pattern_match (slice full start_i (end_i + 1))).
    + cbn [ret]. apply IH; [lia|reflexivity|lia].
    + unfold bind at 1.
      destruct (h_quiet (slice full start_i (end_i + 1)) w)
        as (w1 & -> & Hw1).
      cbn [ret]. rewrite <- Hw1. apply IH; [lia|reflexivity|lia].
Qed.

Lemma frame_total (st : locals) (im : str) (msgs : list str) (m : str)
    (w : World) :
  exists st' w',
    frame h st im msgs m w = Ok st' w'
    /\ inbox w' = inbox w /\ initial_message st' = im.
Proof.
  unfold frame. destruct (contains nl m); [|now eexists _, _].
  unfold bind.
  destruct (consume_lines_total (S (length (join msgs))) (join msgs) 0
              (find (join msgs) nl 0) (done st) w)
    as ([start_i d] & w' & -> & Hw); [lia|reflexivity|unfold len; lia|].
  destruct (start_i <? len m - 1)%Z; [destruct d|]; now eexists _, _.
Qed.

(** A turn of the outer loop raises [DisconnectedError] or returns with
    less left to use up. *)
Lemma loop_body_total (prompt : str) (st : locals) (w : World) :
  (exists w', loop_body prompt h st w = Raise DisconnectedError w')
  \/ (exists st' w',
        loop_body prompt h st w = Ok st' w'
        /\ backlog st' w' < backlog st w).
Proof.
  destruct (truthy (initial_message st)) eqn:Hi.
  - right. rewrite (loop_body_carried prompt h st w Hi).
    destruct (frame_total st [] (messages st ++ [initial_message st])
                (initial_message st)
                (if truthy prompt then emit (Sent prompt) w else w))
      as (st' & w' & -> & Hw & Him).
    exists st', w'. split; [reflexivity|].
    unfold backlog. rewrite Hi, Him, Hw. cbn [truthy].
    destruct (truthy prompt); cbn [inbox emit]; lia.
  - assert (Hi' : initial_message st = [])
      by (destruct (initial_message st); [reflexivity|discriminate]).
    rewrite loop_body_frame.
    set (w1 := if truthy prompt then emit (Sent prompt) w else w).
    assert (Hw1 : inbox w1 = inbox w)
      by (unfold w1; destruct (truthy prompt); reflexivity).
    assert (Hstep :
      bind (if truthy prompt then send prompt else ret tt)
        (fun _ =>
           '(message, initial_message) <-
              (if truthy (initial_message st) then ret (initial_message st, [])
               else message <- recv 4096 ;; ret (message, initial_message st)) ;;
           messages <-
              (if truthy message then ret (messages st ++ [message])
               else raise DisconnectedError) ;;
           frame h st initial_message messages message) w
      = match recv 4096 w1 with
        | Ok message w2 =>
            if truthy message
            then frame h st [] (messages st ++ [message]) message w2
            else Raise DisconnectedError w2
        | Raise e w2 => Raise e w2
        | Stuck => Stuck
        end).
    { unfold bind at 1. unfold w1.
      destruct (truthy prompt); cbn [send ret]; unfold bind at 1;
        rewrite Hi; unfold bind at 1;
        match goal with |- context [recv 4096 ?x] =>
          destruct (recv 4096 x) as [message w2|e w2|] end;
        try reflexivity; cbn [ret]; unfold bind at 1;
        destruct (truthy message); cbn [ret raise]; rewrite ?Hi';
        reflexivity. }
    rewrite Hstep. clear Hstep. unfold recv. rewrite Hw1.
    unfold backlog. rewrite Hi.
    destruct (inbox w) as [|m rest] eqn:Hin.
    + left. now eexists.
    + destruct (Z.leb_spec (len m) 4096) as [Hl|Hl].
      * destruct (truthy m) eqn:Hm; [|left; now eexists].
        right.
        destruct (frame_total st [] (messages st ++ [m]) m
                    (set_inbox rest w1)) as (st' & w' & -> & Hw & Him).
        exists st', w'. split; [reflexivity|].
        rewrite Hw, Him. cbn [truthy inbox set_inbox join concat length].
        rewrite length_app. destruct m; [discriminate|]. cbn [length]. lia.
      * assert (Hm : truthy (slice m 0 4096) = true).
        { unfold slice. cbn [Z.to_nat skipn].
          unfold len in Hl. destruct m; [cbn in Hl; lia|reflexivity]. }
        rewrite Hm. right.
        destruct (frame_total st [] (messages st ++ [slice m 0 4096])
                    (slice m 0 4096)
                    (set_inbox (slice_from m 4096 :: rest) w1))
          as (st' & w' & -> & Hw & Him).
        exists st', w'. split; [reflexivity|].
        rewrite Hw, Him.
        cbn [truthy inbox set_inbox join concat length].
        rewrite !length_app. unfold slice_from. rewrite length_skipn.
        unfold len in Hl. lia.
Qed.

Lemma run_loop_total (bound : nat) (prompt : str) (st : locals) (w : World) :
  backlog st w < bound ->
  exists w',
    run_loop bound prompt h st w = Raise DisconnectedError w'
    \/ exists remaining, run_loop bound prompt h st w = Ok remaining w'.
Proof.
  revert st w.
  induction bound as [|bound IH]; intros st w Hb; [lia|].
  cbn [run_loop]. destruct (done st).
  - exists w. right. now eexists.
  - unfold bind.
    destruct (loop_body_total prompt st w)
      as [(w' & ->)|(st' & w' & -> & Hlt)].
    + exists w'. now left.
    + apply IH. lia.
Qed.

(** [run_test] returns or raises [DisconnectedError]: the bounds of the
    model's loops are never hit. *)
Lemma run_test_total (test_name prompt carried : str) (w : World) :
  exists w',
    run_test test_name prompt h carried w = Raise DisconnectedError w'
    \/ exists remaining,
         run_test test_name prompt h carried w = Ok remaining w'.
Proof.
  unfold run_test, bind at 1 2. cbn [print_flat send].
  apply run_loop_total.
  unfold backlog, turns. cbn [initial_message inbox emit].
  destruct (truthy carried); lia.
Qed.

End Totality.

Lemma echo_handler_quiet : quiet echo_handler.
Proof. intros line w. now eexists. Qed.

Lemma byte_count_handler_quiet : quiet byte_count_handler.
Proof. intros line w. now eexists. Qed.

(** ** What a handler that logs its argument shows *)

Section LoggedLines.

(** The events there were before the call. *)
Variable old : list event.

Lemma lines_logged_emit (e : event) (w : World) :
  lines_logged old w ->
  (forall l, e = Info l -> is_line l = true) ->
  lines_logged old (emit e w).
Proof.
  intros Hw He l Hl. cbn [trace emit] in Hl.
  apply in_app_or in Hl as [Hl|[Hl|[]]]; [now apply Hw|].
  right. now apply He.
Qed.

Lemma lines_logged_after_prompt (prompt : str) (w : World) :
  lines_logged old w -> lines_logged old (after_prompt prompt w).
Proof.
  intros Hw. unfold after_prompt. destruct (truthy prompt); [|exact Hw].
  apply lines_logged_emit; [exact Hw|discriminate].
Qed.

Lemma consume_lines_logs (bound : nat) (full : str)
    (start_i end_i : Z) (d : bool) (w w' : World) :
  (0 <= start_i)%Z -> find full nl start_i = end_i ->
  lines_logged old w ->
  final (consume_lines bound log_line full start_i end_i d w) = Some w' ->
  lines_logged old w'.
Proof.
  revert start_i end_i d w.
  induction bound as [|bound IH]; intros start_i end_i d w Hs He Hw;
    cbn [consume_lines];
    (destruct (Z.eqb_spec end_i (-1)) as [E|E]; cbn [negb andb];
     [same_world|]);
    (destruct d; cbn [negb]; [same_world|]).
  - discriminate.
  - pose proof (find_range full start_i end_i Hs He E) as Hr.
    pose proof (find_slice_is_line full start_i end_i Hs He E) as Hl.
    unfold bind at 1.
    destruct (end_pattern_match (slice full start_i (end_i + 1))).
    + cbn [ret]. apply IH; [lia|reflexivity|exact Hw].
    + unfold bind at 1. cbn [log_line print_info ret].
      apply IH; [lia|reflexivity|].
      apply lines_logged_emit; [exact Hw|].
      intros l [= <-]. exact Hl.
Qed.

Lemma frame_logs (st : locals) (im : str)
    (msgs : list str) (m : str) (w w' : World) :
  lines_logged old w ->
  final (frame log_line st im msgs m w) = Some w' ->
  lines_logged old w'.
Proof.
  intros Hw. unfold frame.
  destruct (contains nl m); [|same_world].
  unfold bind.
  destruct (consume_lines (S (length (join msgs))) log_line (join msgs) 0
              (find (join msgs) nl 0) (done st) w)
    as [[start_i d] w1|e w1|] eqn:Hc; [| |discriminate];
    assert (H1 : lines_logged old w1)
      by (apply (consume_lines_logs (S (length (join msgs))) (join msgs) 0
                   (find (join msgs) nl 0) (done st) w w1
                   (Z.le_refl 0) eq_refl Hw);
          rewrite Hc; reflexivity).
  - destruct (start_i <? len m - 1)%Z; [destruct d|]; same_world.
  - same_world.
Qed.

Lemma loop_body_logs (prompt : str) (st : locals)
    (w w' : World) :
  lines_logged old w ->
  final (loop_body prompt log_line st w) = Some w' ->
  lines_logged old w'.
Proof.
  intros Hw. rewrite loop_body_frame. unfold bind at 1.
  replace ((if truthy prompt then send prompt else ret tt) w)
    with (Ok tt (after_prompt prompt w))
    by (unfold after_prompt; destruct (truthy prompt); reflexivity).
  apply (lines_logged_after_prompt prompt) in Hw.
  revert Hw. generalize (after_prompt prompt w). clear w. intros w Hw.
  unfold bind at 1.
  destruct (truthy (initial_message st)) eqn:Hi; cbn [ret].
  - unfold bind at 1. rewrite Hi. cbn [ret]. now apply frame_logs.
  - unfold bind at 1.
    assert (Hrecv : exists m w1,
               recv 4096 w = Ok m w1 /\ lines_logged old w1).
    { unfold recv. destruct (inbox w) as [|m rest]; [now eexists _, _|].
      destruct (len m <=? 4096)%Z; now eexists _, _. }
    destruct Hrecv as (m & w1 & -> & Hw1). cbn [ret]. unfold bind at 1.
    destruct (truthy m); cbn [ret raise].
    + now apply frame_logs.
    + same_world.
Qed.

Lemma run_loop_logs (bound : nat) (prompt : str)
    (st : locals) (w w' : World) :
  lines_logged old w ->
  final (run_loop bound prompt log_line st w) = Some w' ->
  lines_logged old w'.
Proof.
  revert st w. induction bound as [|bound IH]; intros st w Hw;
    cbn [run_loop]; (destruct (done st); [same_world|]).
  - discriminate.
  - unfold bind.
    destruct (loop_body prompt log_line st w) as [st1 w1|e w1|] eqn:Hb;
      [| |discriminate];
      assert (H1 : lines_logged old w1)
        by (apply (loop_body_logs prompt st w w1 Hw);
            rewrite Hb; reflexivity).
    + now apply IH.
    + same_world.
Qed.

End LoggedLines.

Lemma run_test_logs (test_name prompt carried : str) (w w' : World) :
  final (run_test test_name prompt log_line carried w) = Some w' ->
  lines_logged (trace w) w'.
Proof.
  unfold run_test, bind at 1 2. cbn [print_flat send].
  apply run_loop_logs.
  repeat (apply lines_logged_emit; [|discriminate]).
  intros l Hl. now left.
Qed.

(** ** Worked inputs *)

(** A chunk without a newline is kept whole and hands on no line. *)
Lemma chunk_without_newline_retained (prompt : str) (h : str -> M unit)
    (st : locals) (m : str) (rest : list str) (w : World) :
  initial_message st = [] -> inbox w = m :: rest ->
  truthy m = true -> (len m <= 4096)%Z -> contains nl m = false ->
  loop_body prompt h st w
  = Ok (mkLocals [] (messages st ++ [m]) (remaining_message st) (done st))
      (set_inbox rest (after_prompt prompt w)).
Proof.
  intros Hi Hw Hm Hl Hc.
  rewrite (loop_body_read prompt h st w m rest Hi Hw Hm Hl).
  unfold frame. rewrite Hc. reflexivity.
Qed.

(** ** More on the termination pattern *)

Lemma lit_i_e (c : ascii) :
  lit_i "e" c = true <-> c = "e"%char \/ c = "E"%char.
Proof.
  destruct c as [[] [] [] [] [] [] [] []]; cbv; split;
    solve [discriminate | intros [H|H]; discriminate H | auto].
Qed.

Lemma lit_i_n (c : ascii) :
  lit_i "n" c = true <-> c = "n"%char \/ c = "N"%char.
Proof.
  destruct c as [[] [] [] [] [] [] [] []]; cbv; split;
    solve [discriminate | intros [H|H]; discriminate H | auto].
Qed.

Lemma lit_i_d (c : ascii) :
  lit_i "d" c = true <-> c = "d"%char \/ c = "D"%char.
Proof.
  destruct c as [[] [] [] [] [] [] [] []]; cbv; split;
    solve [discriminate | intros [H|H]; discriminate H | auto].
Qed.

Lemma lstrip_split (s : str) :
  exists ws, s = ws ++ lstrip s /\ forallb is_space ws = true.
Proof.
  induction s as [|c s (ws & E & Hws)]; [now exists []|].
  cbn [lstrip]. destruct (is_space c) eqn:Hc.
  - exists (c :: ws). cbn [app forallb]. rewrite Hc, Hws. now rewrite <- E.
  - now exists [].
Qed.

Lemma lstrip_app (s t : str) : lstrip s <> [] -> lstrip (s ++ t) = lstrip s ++ t.
Proof.
  induction s as [|c s IH]; cbn [lstrip app]; [congruence|].
  destruct (is_space c); auto.
Qed.

Lemma is_space_lower (c : ascii) : is_space (lower c) = is_space c.
Proof. destruct c as [[] [] [] [] [] [] [] []]; reflexivity. Qed.

Lemma lower_lower (c : ascii) : lower (lower c) = lower c.
Proof. destruct c as [[] [] [] [] [] [] [] []]; reflexivity. Qed.

Lemma lstrip_map_lower (s : str) : lstrip (map lower s) = map lower (lstrip s).
Proof.
  induction s as [|c s IH]; [reflexivity|].
  cbn [map lstrip]. rewrite is_space_lower. now destruct (is_space c).
Qed.

(** ** Lines of a buffer, one after the other *)

Lemma bind_ext_Ok {A B : Type} (c : M A) (k k' : A -> M B) (w : World) :
  (forall a w', c w = Ok a w' -> k a w' = k' a w') ->
  bind c k w = bind c k' w.
Proof.
  intros Hk. unfold bind. destruct (c w) eqn:E; auto.
Qed.

Lemma bind_assoc {A B C : Type} (c : M A) (f : A -> M B) (g : B -> M C)
    (w : World) :
  bind (bind c f) g w = bind c (fun a => bind (f a) g) w.
Proof. unfold bind. destruct (c w); reflexivity. Qed.

Lemma skipn_len_app (pre post : str) :
  skipn (Z.to_nat (len pre)) (pre ++ post) = post.
Proof.
  unfold len. rewrite Nat2Z.id, skipn_app, skipn_all, Nat.sub_diag.
  reflexivity.
Qed.

Lemma index_of_none (s : str) : contains nl s = false -> index_of nl s = None.
Proof.
  unfold contains. induction s as [|x s IH]; cbn [existsb index_of];
    [reflexivity|].
  rewrite (Ascii.eqb_sym nl x). destruct (Ascii.eqb x nl); [discriminate|].
  cbn [orb]. intros H. now rewrite (IH H).
Qed.

Lemma find_line_at (pre l post : str) :
  is_line l = true ->
  find (pre ++ l ++ post) nl (len pre) = (len (pre ++ l) - 1)%Z.
Proof.
  intros Hl. unfold find. rewrite skipn_len_app, (is_line_index l post Hl).
  pose proof (is_line_nonempty l Hl). unfold len. rewrite length_app. lia.
Qed.

Lemma find_none_at (pre post : str) :
  contains nl post = false -> find (pre ++ post) nl (len pre) = (-1)%Z.
Proof.
  intros H. unfold find. now rewrite skipn_len_app, (index_of_none post H).
Qed.

Lemma slice_line_at (pre l post : str) :
  slice (pre ++ l ++ post) (len pre) (len (pre ++ l) - 1 + 1) = l.
Proof.
  unfold slice. rewrite skipn_len_app. unfold len. rewrite length_app.
  replace (Z.to_nat (Z.of_nat (length pre + length l) - 1 + 1
                     - Z.of_nat (length pre))) with (length l) by lia.
  rewrite firstn_app, Nat.sub_diag, firstn_all. cbn. apply app_nil_r.
Qed.

(** One turn of the inner loop on a plain line. *)
Lemma consume_lines_plain (bound : nat) (h : str -> M unit)
    (pre l post : str) (w : World) :
  plain_line l ->
  consume_lines (S bound) h (pre ++ l ++ post) (len pre)
    (find (pre ++ l ++ post) nl (len pre)) false w
  = (h l ;;
     consume_lines bound h (pre ++ l ++ post) (len (pre ++ l))
       (find (pre ++ l ++ post) nl (len (pre ++ l))) false) w.
Proof.
  intros [Hl Hm]. pose proof (is_line_nonempty l Hl) as Hn.
  rewrite (find_line_at pre l post Hl) at 1. cbn [consume_lines].
  destruct (Z.eqb_spec (len (pre ++ l) - 1) (-1)) as [E|E];
    [unfold len in E; rewrite length_app in E; lia|]. cbn [negb andb].
  rewrite slice_line_at, Hm.
  replace (len (pre ++ l) - 1 + 1)%Z with (len (pre ++ l)) by lia.
  unfold bind. destruct (h l w); reflexivity.
Qed.

(** One turn of the inner loop on a termination line. *)
Lemma consume_lines_end (bound : nat) (h : str -> M unit)
    (pre l post : str) (w : World) :
  is_line l = true -> end_pattern_match l = true ->
  consume_lines (S bound) h (pre ++ l ++ post) (len pre)
    (find (pre ++ l ++ post) nl (len pre)) false w
  = Ok (len (pre ++ l), true) w.
Proof.
  intros Hl Hm. pose proof (is_line_nonempty l Hl) as Hn.
  rewrite (find_line_at pre l post Hl). cbn [consume_lines].
  destruct (Z.eqb_spec (len (pre ++ l) - 1) (-1)) as [E|E];
    [unfold len in E; rewrite length_app in E; lia|]. cbn [negb andb].
  rewrite slice_line_at, Hm.
  replace (len (pre ++ l) - 1 + 1)%Z with (len (pre ++ l)) by lia.
  unfold bind, ret.
  destruct bound; cbn [consume_lines]; rewrite andb_false_r; reflexivity.
Qed.

(** The inner loop on plain lines followed by bytes without a newline. *)
Lemma consume_lines_deliver (h : str -> M unit) (lines : list str)
    (rest : str) :
  Forall plain_line lines -> contains nl rest = false ->
  forall (bound : nat) (pre : str) (w : World),
    length lines <= bound ->
    consume_lines bound h (pre ++ concat lines ++ rest) (len pre)
      (find (pre ++ concat lines ++ rest) nl (len pre)) false w
    = (deliver h lines ;; ret (len (pre ++ concat lines), false)) w.
Proof.
  intros Hlines Hrest. induction Hlines as [|l ls Hl Hls IH];
    intros bound pre w Hb.
  - cbn [concat app deliver]. rewrite (find_none_at pre rest Hrest).
    rewrite app_nil_r. destruct bound; reflexivity.
  - cbn [concat deliver length] in *. destruct bound as [|bound]; [lia|].
    rewrite <- (app_assoc l).
    rewrite (consume_lines_plain bound h pre l _ w Hl).
    rewrite bind_assoc. apply bind_ext. intros _ w1.
    rewrite (app_assoc pre l). rewrite IH by lia.
    rewrite <- !app_assoc. reflexivity.
Qed.

(** The inner loop on plain lines followed by a termination line. *)
Lemma consume_lines_deliver_end (h : str -> M unit) (lines : list str)
    (tline rest : str) :
  Forall plain_line lines ->
  is_line tline = true -> end_pattern_match tline = true ->
  forall (bound : nat) (pre : str) (w : World),
    length lines < bound ->
    consume_lines bound h (pre ++ concat lines ++ tline ++ rest) (len pre)
      (find (pre ++ concat lines ++ tline ++ rest) nl (len pre)) false w
    = (deliver h lines ;;
       ret (len (pre ++ concat lines ++ tline), true)) w.
Proof.
  intros Hlines Ht Hm. induction Hlines as [|l ls Hl Hls IH];
    intros bound pre w Hb.
  - cbn [concat app deliver]. destruct bound as [|bound]; [lia|].
    now rewrite (consume_lines_end bound h pre tline rest w Ht Hm).
  - cbn [concat deliver length] in *. destruct bound as [|bound]; [lia|].
    rewrite <- (app_assoc l).
    rewrite (consume_lines_plain bound h pre l _ w Hl).
    rewrite bind_assoc. apply bind_ext. intros _ w1.
    rewrite (app_assoc pre l). rewrite IH by lia.
    rewrite <- !app_assoc. reflexivity.
Qed.

Lemma plain_lines_length (lines : list str) :
  Forall plain_line lines -> length lines <= length (concat lines).
Proof.
  induction 1 as [|l ls [Hl _] _ IH]; [reflexivity|].
  cbn [concat length]. rewrite length_app.
  pose proof (is_line_nonempty l Hl). lia.
Qed.

Lemma join_snoc (pend : list str) (m : str) : join (pend ++ [m]) = join pend ++ m.
Proof. unfold join. rewrite concat_app. cbn [concat]. now rewrite app_nil_r. Qed.

(** The second half of a turn on a buffer of plain lines and a rest. *)
Lemma frame_plain_lines (h : str -> M unit) (st : locals) (im : str)
    (pend : list str) (m : str) (lines : list str) (rest : str) (w : World) :
  done st = false -> contains nl m = true ->
  join (pend ++ [m]) = concat lines ++ rest ->
  Forall plain_line lines -> contains nl rest = false ->
  frame h st im (pend ++ [m]) m w
  = (deliver h lines ;;
     ret (mkLocals im
            (if length (join pend) + 2 <=? length rest then [rest] else [])
            (remaining_message st) false)) w.
Proof.
  intros Hd Hm Hj Hl Hr. unfold frame. rewrite Hm, Hd.
  assert (Hlen : length (join pend) + length m
                 = length (concat lines) + length rest).
  { rewrite <- !length_app, <- join_snoc, Hj. reflexivity. }
  rewrite Hj.
  pose proof (consume_lines_deliver h lines rest Hl Hr
                (S (length (concat lines ++ rest))) [] w) as Hc.
  cbn [app] in Hc. change (len []) with 0%Z in Hc.
  unfold bind at 1. rewrite Hc
    by (pose proof (plain_lines_length lines Hl); rewrite length_app; lia).
  unfold bind. destruct (deliver h lines w) as [[] w1|e w1|]; try reflexivity.
  cbn [ret]. unfold len, slice_from. rewrite Nat2Z.id.
  rewrite skipn_app, skipn_all, Nat.sub_diag. cbn [skipn app].
  destruct (Nat.leb_spec (length (join pend) + 2) (length rest));
    destruct (Z.ltb_spec (Z.of_nat (length (concat lines)))
                (Z.of_nat (length m) - 1)); try lia; reflexivity.
Qed.

(** The second half of a turn on a buffer in which a termination line
    follows plain lines. *)
Lemma frame_plain_lines_end (h : str -> M unit) (st : locals) (im : str)
    (pend : list str) (m : str) (lines : list str) (tline rest : str)
    (w : World) :
  done st = false -> contains nl m = true ->
  join (pend ++ [m]) = concat lines ++ tline ++ rest ->
  Forall plain_line lines ->
  is_line tline = true -> end_pattern_match tline = true ->
  frame h st im (pend ++ [m]) m w
  = (deliver h lines ;;
     ret (if length (join pend) + 2 <=? length rest
          then mkLocals im (pend ++ [m]) rest true
          else mkLocals im [] (remaining_message st) true)) w.
Proof.
  intros Hd Hm Hj Hl Ht Hmt. unfold frame. rewrite Hm, Hd.
  assert (Hlen : length (join pend) + length m
                 = length (concat lines) + length tline + length rest).
  { rewrite <- !length_app, <- join_snoc, Hj, <- app_assoc. reflexivity. }
  rewrite Hj.
  pose proof (consume_lines_deliver_end h lines tline rest Hl Ht Hmt
                (S (length (concat lines ++ tline ++ rest))) [] w) as Hc.
  cbn [app] in Hc. change (len []) with 0%Z in Hc.
  unfold bind at 1. rewrite Hc
    by (pose proof (plain_lines_length lines Hl); rewrite length_app; lia).
  unfold bind. destruct (deliver h lines w) as [[] w1|e w1|]; try reflexivity.
  cbn [ret]. unfold len, slice_from. rewrite Nat2Z.id.
  rewrite (app_assoc (concat lines) tline rest).
  rewrite skipn_app, skipn_all, Nat.sub_diag. cbn [skipn app].
  rewrite length_app.
  destruct (Nat.leb_spec (length (join pend) + 2) (length rest));
    destruct (Z.ltb_spec (Z.of_nat (length (concat lines) + length tline))
                (Z.of_nat (length m) - 1)); try lia; reflexivity.
Qed.

(** ** Lines that arrive in pieces *)

Lemma is_line_app_head (x y : str) :
  is_line (x ++ y) = true -> y <> [] -> contains nl x = false.
Proof.
  intros H Hy. induction x as [|c x IH]; [reflexivity|].
  cbn [app is_line] in H. unfold contains in *. cbn [existsb].
  rewrite (Ascii.eqb_sym nl c). destruct (Ascii.eqb c nl).
  - destruct x; cbn in H; [destruct y; [congruence|discriminate]|discriminate].
  - cbn [orb]. now apply IH.
Qed.

Lemma is_line_app_last (x y : str) :
  is_line (x ++ y) = true -> y <> [] -> contains nl y = true.
Proof.
  intros H Hy. induction x as [|c x IH].
  - cbn [app] in H. rewrite <- (app_nil_r y). now apply is_line_contains.
  - cbn [app is_line] in H. destruct (Ascii.eqb c nl).
    + destruct x; cbn in H; [destruct y; [congruence|discriminate]|discriminate].
    + now apply IH.
Qed.

Lemma truthy_nonempty (c : str) : truthy c = true -> c <> [].
Proof. destruct c; [discriminate|congruence]. Qed.

Lemma concat_nonempty (g : list str) :
  Forall one_read g -> g <> [] -> concat g <> [].
Proof.
  intros Hg Hne. destruct Hg as [|c g [Hc _] _]; [congruence|].
  cbn [concat]. destruct c; [discriminate|discriminate].
Qed.

Lemma prompt_bind {B : Type} (prompt : str) (k : unit -> M B) (w : World) :
  bind (if truthy prompt then send prompt else ret tt) k w
  = k tt (after_prompt prompt w).
Proof. unfold after_prompt, bind. destruct (truthy prompt); reflexivity. Qed.

Lemma inbox_after_prompt (prompt : str) (w : World) :
  inbox (after_prompt prompt w) = inbox w.
Proof. unfold after_prompt. destruct (truthy prompt); reflexivity. Qed.

Lemma recv_bind {B : Type} (k : str -> M B) (c : str) (rest : list str)
    (w : World) :
  inbox w = c :: rest -> (len c <= 4096)%Z ->
  bind (recv 4096) k w = k c (set_inbox rest w).
Proof.
  intros Hw Hl. unfold bind, recv. rewrite Hw.
  destruct (Z.leb_spec (len c) 4096); [reflexivity|lia].
Qed.

Section Groups.

Variable prompt : str.
Variable h : str -> M unit.
Hypothesis h_keeps_inbox : keeps_inbox h.

(** The reads of a group return and use up its chunks. *)
Lemma reads_group (g : list str) (rest : list str) (w : World) :
  Forall one_read g -> inbox w = g ++ rest ->
  exists w', reads prompt (length g) w = Ok tt w' /\ inbox w' = rest.
Proof.
  intros Hg. revert w. induction Hg as [|c g [Hc Hl] Hg IH]; intros w Hw.
  - exists w. now split.
  - cbn [length reads app] in *. rewrite prompt_bind.
    rewrite (recv_bind _ c (g ++ rest))
      by (rewrite ?inbox_after_prompt; auto).
    apply IH. reflexivity.
Qed.

(** The turns that read the chunks of one line and hand the line on. *)
Lemma run_loop_group (g : list str) :
  Forall one_read g ->
  forall (pend : list str) (rest : list str) (bound : nat) (w : World),
    g <> [] -> plain_line (join pend ++ concat g) ->
    inbox w = g ++ rest ->
    run_loop (length g + bound) prompt h (mkLocals [] pend [] false) w
    = (reads prompt (length g) ;;
       h (join pend ++ concat g) ;;
       run_loop bound prompt h (mkLocals [] [] [] false)) w.
Proof.
  induction 1 as [|c g [Hc Hl] Hg IH]; intros pend rest bound w Hne Hp Hw;
    [congruence|].
  cbn [length Nat.add run_loop done reads].
  rewrite bind_assoc, prompt_bind, bind_assoc.
  destruct g as [|c' g'].
  - (* the chunk that ends the line *)
    cbn [concat app] in *. rewrite app_nil_r in Hp. rewrite (app_nil_r c).
    destruct Hp as [Hp Hnt].
    assert (Hnl : contains nl c = true)
      by (apply (is_line_app_last (join pend) c Hp), truthy_nonempty, Hc).
    rewrite (recv_bind _ c rest) by (rewrite ?inbox_after_prompt; auto).
    unfold bind at 1.
    rewrite (loop_body_read prompt h (mkLocals [] pend [] false) w c rest
               eq_refl Hw Hc Hl).
    cbn [messages].
    rewrite (frame_plain_lines h (mkLocals [] pend [] false) [] pend c
               [join pend ++ c] [] _ eq_refl Hnl)
      by (rewrite ?join_snoc; cbn [concat]; rewrite ?app_nil_r;
          repeat constructor; auto).
    cbn [deliver length remaining_message reads Nat.add].
    replace (length (join pend) + 2 <=? 0) with false
      by (symmetry; apply Nat.leb_gt; lia).
    fold (after_prompt prompt w).
    unfold bind, ret.
    destruct (h (join pend ++ c) _) as [[] w1|e w1|]; reflexivity.
  - (* a chunk before the end of the line *)
    assert (Hnl : contains nl c = false).
    { destruct Hp as [Hp _]. cbn [concat] in Hp. rewrite app_assoc in Hp.
      apply is_line_app_head in Hp.
      - unfold contains in *. rewrite existsb_app in Hp.
        now apply orb_false_iff in Hp.
      - apply (concat_nonempty (c' :: g') Hg). discriminate. }
    rewrite (recv_bind _ c ((c' :: g') ++ rest))
      by (rewrite ?inbox_after_prompt; auto).
    unfold bind at 1.
    rewrite (chunk_without_newline_retained prompt h
               (mkLocals [] pend [] false) c ((c' :: g') ++ rest) w
               eq_refl Hw Hc Hl Hnl).
    cbn [messages remaining_message done].
    rewrite (IH (pend ++ [c]) rest bound _ ltac:(discriminate))
      by (rewrite ?join_snoc, <- ?app_assoc; auto).
    rewrite join_snoc, <- app_assoc. reflexivity.
Qed.

(** Lines in chunks, then a termination line in one chunk. *)
Lemma run_loop_groups (groups : list (list str)) (tline rest : str)
    (others : list str) :
  Forall line_in_chunks groups ->
  is_line tline = true -> end_pattern_match tline = true ->
  (len (tline ++ rest) <= 4096)%Z ->
  forall (bound : nat) (w : World),
    inbox w = concat groups ++ (tline ++ rest) :: others ->
    run_loop (length (concat groups) + S bound) prompt h
      (mkLocals [] [] [] false) w
    = (serve_groups prompt h groups ;;
       reads prompt 1 ;;
       ret (kept rest)) w.
Proof.
  intros Hgs Ht Hm Hlen.
  induction Hgs as [|g gs [Hg Hp] Hgs IH]; intros bound w Hw.
  - cbn [concat length Nat.add app serve_groups] in *.
    cbn [run_loop done]. unfold bind at 1.
    rewrite (loop_body_read prompt h (mkLocals [] [] [] false) w
               (tline ++ rest) others eq_refl Hw)
      by (auto using truthy_app, is_line_nonempty).
    cbn [messages app].
    match goal with |- context [frame h ?st [] _ _ ?w1] =>
      destruct (frame_terminator h st [] tline rest w1
                  eq_refl eq_refl Ht Hm) as [msgs ->] end.
    unfold bind at 1. cbn [ret reads].
    rewrite bind_assoc, prompt_bind, bind_assoc.
    rewrite (recv_bind _ (tline ++ rest) others)
      by (rewrite ?inbox_after_prompt; auto).
    unfold after_prompt. destruct bound; reflexivity.
  - cbn [concat serve_groups] in *. rewrite length_app, <- Nat.add_assoc.
    rewrite <- app_assoc in Hw.
    assert (Hne : g <> []).
    { intros ->. destruct Hp as [Hp _]. discriminate Hp. }
    rewrite (run_loop_group g Hg [] _ _ w Hne Hp Hw).
    cbn [join concat app].
    destruct (reads_group g _ w Hg Hw) as (w1 & Hr & Hw1).
    rewrite (bind_Ok (reads prompt (length g)) _ w w1 tt Hr).
    rewrite bind_assoc.
    rewrite (bind_Ok (reads prompt (length g)) _ w w1 tt Hr).
    rewrite bind_assoc.
    apply bind_ext_Ok. intros a w' Hh.
    apply IH. rewrite (h_keeps_inbox _ _ _ _ Hh). exact Hw1.
Qed.

End Groups.

Lemma echo_handler_keeps_inbox : keeps_inbox echo_handler.
Proof. intros line w a w' [= _ <-]. reflexivity. Qed.

Lemma sent_data_app (a b : list event) :
  sent_data (a ++ b) = sent_data a ++ sent_data b.
Proof. unfold sent_data. apply flat_map_app. Qed.

(** Without a prompt, reading shows nothing. *)
Lemma reads_silent (g : list str) (rest : list str) (w : World) :
  Forall one_read g -> inbox w = g ++ rest ->
  exists w',
    reads [] (length g) w = Ok tt w' /\ inbox w' = rest /\ trace w' = trace w.
Proof.
  intros Hg. revert w. induction Hg as [|c g [Hc Hl] Hg IH]; intros w Hw.
  - exists w. now split.
  - cbn [length reads app truthy] in *. unfold bind at 1. cbn [ret].
    rewrite (recv_bind _ c (g ++ rest) w Hw Hl).
    destruct (IH (set_inbox (g ++ rest) w) eq_refl) as (w' & Hr & Hi & Ht).
    exists w'. auto.
Qed.

(** The echo handler over lines in chunks: each line goes back as it came. *)
Lemma serve_groups_echo (groups : list (list str)) (rest : list str) :
  Forall line_in_chunks groups ->
  forall w : World,
    inbox w = concat groups ++ rest ->
    exists w',
      serve_groups [] echo_handler groups w = Ok tt w'
      /\ inbox w' = rest
      /\ sent_data (trace w') = sent_data (trace w) ++ map (@concat ascii) groups.
Proof.
  induction 1 as [|g gs [Hg _] _ IH]; intros w Hw.
  - exists w. cbn [map]. rewrite app_nil_r. now split.
  - cbn [concat serve_groups map] in *. rewrite <- app_assoc in Hw.
    destruct (reads_silent g _ w Hg Hw) as (w1 & Hr & Hi & Ht).
    rewrite (bind_Ok _ _ w w1 tt Hr).
    unfold echo_handler at 1, bind at 1 2. cbn [print_flat send].
    match goal with |- context [serve_groups _ _ gs ?x] =>
      destruct (IH x Hi) as (w' & Hs & Hi' & Ht') end.
    exists w'. split; [exact Hs|]. split; [exact Hi'|].
    rewrite Ht'. cbn [trace emit]. rewrite !sent_data_app, Ht.
    cbn. rewrite <- !app_assoc. reflexivity.
Qed.

(** ** What a turn leaves pending *)

Lemma contains_index_of (s : str) : index_of nl s = None -> contains nl s = false.
Proof.
  unfold contains. induction s as [|x s IH]; cbn [existsb index_of];
    [reflexivity|].
  rewrite (Ascii.eqb_sym nl x). destruct (Ascii.eqb x nl); [discriminate|].
  cbn [orb]. destruct (index_of nl s); [discriminate|]. intros _. now apply IH.
Qed.

Lemma find_none_contains (full : str) (start : Z) :
  (0 <= start)%Z -> find full nl start = (-1)%Z ->
  contains nl (slice_from full start) = false.
Proof.
  unfold find, slice_from. intros Hs.
  destruct (index_of nl (skipn (Z.to_nat start) full)) eqn:E; [lia|].
  intros _. now apply contains_index_of.
Qed.

(** When the inner loop ends without a termination line, no newline is
    left from [start_i] on. *)
Lemma consume_lines_exit (h : str -> M unit) (full : str) (bound : nat) :
  forall (start_i end_i : Z) (w : World) (s' : Z) (w' : World),
    (0 <= start_i)%Z -> find full nl start_i = end_i ->
    consume_lines bound h full start_i end_i false w = Ok (s', false) w' ->
    (0 <= s')%Z /\ find full nl s' = (-1)%Z.
Proof.
  induction bound as [|bound IH]; intros start_i end_i w s' w' Hs He;
    cbn [consume_lines];
    (destruct (Z.eqb_spec end_i (-1)) as [E|E]; cbn [negb andb];
     [intros [= <- _]; split; [exact Hs|congruence]|]).
  - discriminate.
  - pose proof (find_range full start_i end_i Hs He E) as Hr.
    unfold bind at 1.
    destruct (end_pattern_match (slice full start_i (end_i + 1))).
    + cbn [ret]. destruct bound; cbn [consume_lines];
        rewrite andb_false_r; discriminate.
    + unfold bind at 1.
      destruct (h (slice full start_i (end_i + 1)) w) as [[] w1|e w1|];
        [|discriminate|discriminate].
      cbn [ret]. apply IH; [lia|reflexivity].
Qed.

(** A turn that returns went through the second half with some message. *)
Lemma loop_body_Ok (prompt : str) (h : str -> M unit) (st st' : locals)
    (w w' : World) :
  loop_body prompt h st w = Ok st' w' ->
  exists m w2, frame h st [] (messages st ++ [m]) m w2 = Ok st' w'.
Proof.
  rewrite loop_body_frame, prompt_bind. unfold bind at 1.
  destruct (truthy (initial_message st)) eqn:Hi; cbn [ret].
  - unfold bind at 1. rewrite Hi. cbn [ret]. eauto.
  - assert (Hi' : initial_message st = [])
      by (destruct (initial_message st); [reflexivity|discriminate]).
    unfold bind at 1.
    destruct (recv 4096 (after_prompt prompt w)) as [m w2|e w2|];
      [|discriminate|discriminate].
    cbn [ret]. unfold bind at 1. destruct (truthy m); cbn [ret raise];
      [|discriminate].
    rewrite Hi'. eauto.
Qed.

(** ** Hang-ups and carried-over pieces *)

Lemma run_loop_closed (bound : nat) (prompt : str) (h : str -> M unit)
    (st : locals) (w : World) :
  done st = false -> initial_message st = [] -> inbox w = [] ->
  run_loop (S bound) prompt h st w
  = Raise DisconnectedError (after_prompt prompt w).
Proof.
  intros Hd Hi Hw. cbn [run_loop]. rewrite Hd. unfold bind at 1.
  rewrite loop_body_frame, prompt_bind. unfold bind at 1. rewrite Hi.
  cbn [truthy]. unfold bind at 1, recv.
  rewrite inbox_after_prompt, Hw. reflexivity.
Qed.

Lemma run_loop_partial (prompt : str) (h : str -> M unit) (cs : list str) :
  Forall partial_chunk cs ->
  forall (pend : list str) (bound : nat) (w : World),
    inbox w = cs ->
    run_loop (length cs + S bound) prompt h (mkLocals [] pend [] false) w
    = (reads prompt (length cs) ;;
       (if truthy prompt then send prompt else ret tt) ;;
       raise DisconnectedError) w.
Proof.
  induction 1 as [|c cs [[Hc Hl] Hn] _ IH]; intros pend bound w Hw.
  - cbn [length Nat.add reads].
    rewrite (run_loop_closed bound prompt h (mkLocals [] pend [] false) w
               eq_refl eq_refl Hw).
    unfold bind at 1. cbn [ret]. now rewrite prompt_bind.
  - cbn [length Nat.add run_loop done reads].
    rewrite bind_assoc, prompt_bind, bind_assoc.
    rewrite (recv_bind _ c cs) by (rewrite ?inbox_after_prompt; auto).
    unfold bind at 1.
    rewrite (chunk_without_newline_retained prompt h
               (mkLocals [] pend [] false) c cs w eq_refl Hw Hc Hl Hn).
    cbn [messages remaining_message done].
    now rewrite (IH (pend ++ [c]) bound
                   (set_inbox cs (after_prompt prompt w)) eq_refl).
Qed.

(** A turn on carried-over bytes without a newline keeps them pending. *)
Lemma loop_body_carried_piece (prompt : str) (h : str -> M unit)
    (carried : str) (w : World) :
  truthy carried = true -> contains nl carried = false ->
  loop_body prompt h (mkLocals carried [] [] false) w
  = Ok (mkLocals [] [carried] [] false) (after_prompt prompt w).
Proof.
  intros Hc Hn.
  rewrite (loop_body_carried prompt h (mkLocals carried [] [] false) w Hc).
  cbn [messages initial_message app].
  unfold frame. rewrite Hn. reflexivity.
Qed.

(** ** Replies as lines, and signed counts *)

Lemma is_line_snoc (body : str) :
  contains nl body = false -> is_line (body ++ [nl]) = true.
Proof.
  intros H. apply is_line_spec. exists body. split; [reflexivity|].
  intros Hin. unfold contains in H.
  assert (E : existsb (Ascii.eqb nl) body = true)
    by (apply existsb_exists; exists nl; split; [exact Hin|apply Ascii.eqb_refl]).
  congruence.
Qed.

Lemma digits_hold_no_newline (ds : str) :
  forallb is_digit ds = true -> contains nl ds = false.
Proof.
  unfold contains. induction ds as [|d ds IH]; cbn [forallb existsb];
    [reflexivity|].
  intros H. apply andb_true_iff in H as [Hd H]. rewrite (IH H).
  destruct (Ascii.eqb_spec nl d) as [<-|]; [discriminate Hd|reflexivity].
Qed.

Lemma digits_value_nonneg (ds : str) : (0 <= digits_value ds)%Z.
Proof.
  unfold digits_value.
  assert (H : forall acc, (0 <= acc)%Z ->
            (0 <= fold_left (fun a c => 10 * a + digit_val c) ds acc)%Z).
  { induction ds as [|d ds IH]; intros acc Ha; cbn [fold_left]; [exact Ha|].
    apply IH. unfold digit_val. lia. }
  apply H. lia.
Qed.

(** * The claims *)

(** C1. The lines [run_test] hands on depend on where the chunks are cut.
    The bytes ["a\nb\n"] arriving in one piece are echoed as ["a\n"] and
    ["b\n"]; arriving as ["a\nb"] and then ["\n"], they are echoed as
    ["a\n"] and ["\n"]: the [b] left after the last newline of the first
    chunk is dropped by the test [start_i < len(message) - 1]. *)
Theorem split_chunk_changes_lines :
  let whole := py "a" ++ [nl] ++ py "b" ++ [nl] in
  let pieces := [py "a" ++ [nl] ++ py "b"; [nl]] in
  join pieces = whole
  /\ run_test (py "Echo Test") [] echo_handler []
       (fresh_world [whole; end_line])
     = Ok []
         (emit_all
            [Flat (py "Echo Test:"); Sent (header (py "Echo Test"));
             Flat (py "Received: a"); Sent (py "a" ++ [nl]);
             Flat (py "Received: b"); Sent (py "b" ++ [nl])]
            (fresh_world []))
  /\ run_test (py "Echo Test") [] echo_handler []
       (fresh_world (pieces ++ [end_line]))
     = Ok []
         (emit_all
            [Flat (py "Echo Test:"); Sent (header (py "Echo Test"));
             Flat (py "Received: a"); Sent (py "a" ++ [nl]);
             Flat (py "Received: "); Sent [nl]]
            (fresh_world [])).
Proof. repeat split. Qed.

(** C2. After the chunk ["a\nb"] the loop keeps nothing: [messages] is
    empty, not [["b"]], so the [b] is not there for the next read, and a
    following ["c\n"] is handed on as ["c\n"]. *)
Theorem trailing_byte_not_retained :
  loop_body [] echo_handler (mkLocals [] [] [] false)
    (fresh_world [py "a" ++ [nl] ++ py "b"])
  = Ok (mkLocals [] [] [] false)
      (emit_all [Flat (py "Received: a"); Sent (py "a" ++ [nl])]
         (fresh_world []))
  /\ run_test (py "Echo Test") [] echo_handler []
       (fresh_world [py "a" ++ [nl] ++ py "b"; py "c" ++ [nl]; end_line])
     = Ok []
         (emit_all
            [Flat (py "Echo Test:"); Sent (header (py "Echo Test"));
             Flat (py "Received: a"); Sent (py "a" ++ [nl]);
             Flat (py "Received: c"); Sent (py "c" ++ [nl])]
            (fresh_world [])).
Proof. split; reflexivity. Qed.

(** C3. When the peer writes ["end\nm"] in one piece, [run_test] returns
    the empty string: the [m] after the termination line is lost, and the
    next sub-test does not get it.  (With ["end\nmore"] it returns
    ["more"].) *)
Theorem single_byte_after_end_is_lost :
  run_test (py "Echo Test") [] echo_handler []
    (fresh_world [end_line ++ py "m"])
  = Ok []
      (emit_all [Flat (py "Echo Test:"); Sent (header (py "Echo Test"))]
         (fresh_world []))
  /\ run_test (py "Echo Test") [] echo_handler []
       (fresh_world [end_line ++ py "more"])
     = Ok (py "more")
         (emit_all [Flat (py "Echo Test:"); Sent (header (py "Echo Test"))]
            (fresh_world [])).
Proof. split; reflexivity. Qed.

(** C4. The pattern accepts ["end"], ["End"], ["  end  "] and ["END\t"]
    (each with its newline) and rejects ["send"], but it also accepts
    ["ending"]: it asks nothing of what follows [end].  So the line
    ["ending\n"] ends a sub-test and is not handed to the handler. *)
Theorem end_pattern_accepts_ending :
  end_pattern_match (py "end" ++ [nl]) = true
  /\ end_pattern_match (py "End" ++ [nl]) = true
  /\ end_pattern_match (py "  end  " ++ [nl]) = true
  /\ end_pattern_match (py "END" ++ [ascii_of_nat 9; nl]) = true
  /\ end_pattern_match (py "send" ++ [nl]) = false
  /\ end_pattern_match (py "ending" ++ [nl]) = true
  /\ run_test (py "Echo Test") [] echo_handler []
       (fresh_world [py "ending" ++ [nl]])
     = Ok []
         (emit_all [Flat (py "Echo Test:"); Sent (header (py "Echo Test"))]
            (fresh_world [])).
Proof. repeat split. Qed.




(** C6. For a line of [N] bytes, newline included, the byte-count handler
    sends exactly ["Received <N> bytes.\n"], where [<N>] is [N] written in
    decimal: digits that read back as [N].  (It logs the same text without
    the newline first.)  For ["test\n"] the reply is
    ["Received 5 bytes.\n"]. *)
Theorem byte_count_handler_reply :
  (forall (line : str) (w : World),
      byte_count_handler line w
      = Ok tt
          (emit_all
             [Flat (py "Received " ++ dec (length line) ++ py " bytes.");
              Sent (py "Received " ++ dec (length line) ++ py " bytes."
                    ++ [nl])] w)
      /\ forallb is_digit (dec (length line)) = true
      /\ int_literal (dec (length line)) = Some (len line))
  /\ (forall w : World,
         byte_count_handler (py "test" ++ [nl]) w
         = Ok tt
             (emit_all [Flat (py "Received 5 bytes.");
                        Sent (py "Received 5 bytes." ++ [nl])] w)).
Proof.
  split.
  - intros line w. split; [|split].
    + unfold byte_count_handler, bind. cbn [print_flat send emit_all fold_left].
      rewrite fmt_d_len.
      replace ((py "Received " ++ dec (length line) ++ py " bytes.") ++ [nl])
        with (py "Received " ++ dec (length line) ++ py " bytes." ++ [nl])
        by (now rewrite <- !app_assoc).
      reflexivity.
    + apply dec_digits.
    + apply int_literal_dec.
  - intros w. reflexivity.
Qed.

(** C7. A read that returns no bytes makes the runner fail at once: in any
    turn of the loop of [run_test] that has nothing carried over, if [recv]
    gives the empty string then the loop raises [DisconnectedError] in the
    very world that read left, with no other read and nothing sent.  And
    when a sub-test of a session raises it, the later sub-tests are not
    run: the session only logs that the connection is closed and closes the
    stream, and sends nothing more. *)
Theorem zero_read_disconnects :
  (forall (bound : nat) (prompt : str) (data_handler : str -> M unit)
          (st : locals) (w w' : World),
      done st = false -> initial_message st = [] ->
      recv 4096 (after_prompt prompt w) = Ok [] w' ->
      run_loop (S bound) prompt data_handler st w
      = Raise DisconnectedError w')
  /\ (forall (VERSION : str) (addr : str * Z) (w w' : World),
         disconnects VERSION addr w w' ->
         serve_connection VERSION addr w
         = Ok tt (emit Closed (emit (Info (py "Connection closed.")) w'))).
Proof.
  split.
  - intros bound prompt h st w w' Hd Hi Hr.
    cbn [run_loop]. rewrite Hd. unfold bind at 1.
    rewrite loop_body_frame. unfold after_prompt in Hr.
    unfold bind at 1.
    destruct (truthy prompt); cbn [send ret]; unfold bind at 1;
      rewrite Hi; cbn [truthy]; unfold bind at 1; rewrite Hr;
      reflexivity.
  - intros VERSION addr w w' H.
    unfold serve_connection, try_except, handle_connection.
    unfold bind at 1. cbn [print_info]. unfold bind at 1. cbn [send].
    fold (session_start VERSION addr w).
    destruct H as [H|[(r1 & w1 & H1 & H)|(r1 & w1 & r2 & w2 & H1 & H2 & H)]].
    + unfold bind at 1. rewrite H. reflexivity.
    + unfold bind at 1. rewrite H1. unfold bind at 1. rewrite H.
      reflexivity.
    + unfold bind at 1. rewrite H1. unfold bind at 1. rewrite H2.
      unfold bind at 1. rewrite H. reflexivity.
Qed.

Lemma zero_read_disconnects_witness :
  run_loop 1 (py "Bytes to count:") byte_count_handler
    (mkLocals [] [] [] false) (fresh_world [])
  = Raise DisconnectedError
      (emit (Sent (py "Bytes to count:")) (fresh_world []))
  /\ exists w',
       disconnects (py "1.0") (py "127.0.0.1", 5000%Z)
         (fresh_world [end_line]) w'
       /\ serve_connection (py "1.0") (py "127.0.0.1", 5000%Z)
            (fresh_world [end_line])
          = Ok tt (emit Closed (emit (Info (py "Connection closed.")) w')).
Proof.
  split.
  - apply (proj1 zero_read_disconnects 0 (py "Bytes to count:")
             byte_count_handler (mkLocals [] [] [] false) (fresh_world [])
             (emit (Sent (py "Bytes to count:")) (fresh_world [])));
      reflexivity.
  - eexists ?[w'].
    assert (H : disconnects (py "1.0") (py "127.0.0.1", 5000%Z)
                  (fresh_world [end_line]) ?w').
    { right. left. do 2 eexists. split; reflexivity. }
    split; [exact H|].
    exact (proj2 zero_read_disconnects _ _ _ _ H).
Defined.

(** C8. Every line handed to a sub-test handler is a complete line: a run
    of bytes that are not newlines, followed by one newline, its last byte.
    Whatever the handler, the name, the prompt, the carried-over bytes and
    the world (hence whatever is read), [run_test] runs exactly as it does
    with the handler that ignores any argument which is not a complete
    line; and with the handler that logs its argument, every line it logs
    is a complete line. *)
Theorem run_test_handler_sees_complete_lines :
  (forall s, is_line s = true <-> exists body, s = body ++ [nl] /\ ~ In nl body)
  /\ (forall (test_name prompt : str) (data_handler : str -> M unit)
             (carried : str) (w : World),
         run_test test_name prompt data_handler carried w
         = run_test test_name prompt (only_lines data_handler) carried w)
  /\ (forall (test_name prompt carried : str) (w : World) (l : str),
         In (Info l)
           (trace_of (run_test test_name prompt log_line carried w)) ->
         In (Info l) (trace w) \/ is_line l = true).
Proof.
  split; [exact is_line_spec|]. split.
  - intros test_name prompt h carried w. unfold run_test.
    apply bind_ext. intros _ w1. apply bind_ext. intros _ w2.
    apply run_loop_only_lines.
  - intros test_name prompt carried w l. unfold trace_of.
    destruct (final (run_test test_name prompt log_line carried w))
      as [w'|] eqn:Hf; [|intros []].
    apply (run_test_logs test_name prompt carried w w' Hf).
Qed.

Lemma run_test_handler_sees_complete_lines_witness :
  In (Info (py "a" ++ [nl]))
    (trace (fresh_world [py "a" ++ [nl] ++ py "b"; end_line]))
  \/ is_line (py "a" ++ [nl]) = true.
Proof.
  apply (proj2 (proj2 run_test_handler_sees_complete_lines)
           (py "Echo Test") [] []
           (fresh_world [py "a" ++ [nl] ++ py "b"; end_line])
           (py "a" ++ [nl])).
  vm_compute. right. right. left. reflexivity.
Defined.

(** C9. When the bytes carried over into a sub-test begin with a complete
    line that matches the termination pattern, [run_test] ends the sub-test
    without reading from the stream: the inbox is left as it was, nothing is
    handed to the handler, and only the sub-test's opening is sent.  So when
    the termination lines of all three sub-tests arrive in one piece, the
    session runs to its end on that single read and leaves whatever the peer
    wrote afterwards unread. *)
Theorem run_test_carried_termination_reads_nothing :
  (forall (test_name prompt : str) (data_handler : str -> M unit)
          (line rest : str) (w : World),
      is_line line = true -> end_pattern_match line = true ->
      exists remaining w',
        run_test test_name prompt data_handler (line ++ rest) w
        = Ok remaining w'
        /\ inbox w' = inbox w
        /\ trace w' = trace w ++ opening test_name prompt)
  /\ (forall (VERSION : str) (addr : str * Z) (l1 l2 l3 : str)
             (others : list str) (w : World),
         is_line l1 = true -> end_pattern_match l1 = true ->
         is_line l2 = true -> end_pattern_match l2 = true ->
         is_line l3 = true -> end_pattern_match l3 = true ->
         inbox w = (l1 ++ l2 ++ l3) :: others ->
         (len (l1 ++ l2 ++ l3) <= 4096)%Z ->
         handle_connection VERSION addr w
         = Ok tt (set_inbox others (emit_all (batch_session VERSION addr) w))).
Proof.
  split.
  - intros test_name prompt h line rest w Hl Hm.
    rewrite (run_test_carried_terminator test_name prompt h line rest w Hl Hm).
    eexists _, _. split; [reflexivity|]. split; [|].
    + unfold opening. destruct (truthy prompt); reflexivity.
    + unfold opening. destruct (truthy prompt); cbn;
        rewrite <- !app_assoc; reflexivity.
  - intros VERSION addr l1 l2 l3 others w H1 M1 H2 M2 H3 M3 Hw Hlen.
    unfold handle_connection. unfold bind at 1. cbn [send].
    unfold bind at 1.
    rewrite (run_test_read_terminator (py "Echo Test") [] echo_handler
               l1 (l2 ++ l3) others
               (emit (Sent (py "Netbyte Test Server v" ++ VERSION ++ [nl])) w)
               Hw Hlen H1 M1).
    rewrite (kept_terminator l2 l3 M2).
    unfold bind at 1.
    rewrite (run_test_carried_terminator (py "Hex Test")
               (py "Number of bytes to send:") hex_handler l2 l3 _ H2 M2).
    replace (kept l3) with (l3 ++ [])
      by (rewrite <- (kept_terminator l3 [] M3), app_nil_r; reflexivity).
    unfold bind at 1.
    rewrite (run_test_carried_terminator (py "Byte Count Test")
               (py "Bytes to count:") byte_count_handler l3 [] _ H3 M3).
    reflexivity.
Qed.

Lemma run_test_carried_termination_reads_nothing_witness :
  (exists remaining w',
      run_test (py "Hex Test") (py "Number of bytes to send:") hex_handler
        (end_line ++ py "7" ++ [nl]) (fresh_world [py "x"])
      = Ok remaining w'
      /\ inbox w' = inbox (fresh_world [py "x"])
      /\ trace w' = trace (fresh_world [py "x"])
                    ++ opening (py "Hex Test") (py "Number of bytes to send:"))
  /\ handle_connection (py "1.0") (py "127.0.0.1", 5000%Z)
       (fresh_world [end_line ++ py " END " ++ [nl] ++ end_line; py "late"])
     = Ok tt
         (set_inbox [py "late"]
            (emit_all (batch_session (py "1.0") (py "127.0.0.1", 5000%Z))
               (fresh_world
                  [end_line ++ py " END " ++ [nl] ++ end_line; py "late"]))).
Proof.
  split.
  - apply (proj1 run_test_carried_termination_reads_nothing
             (py "Hex Test") (py "Number of bytes to send:") hex_handler
             end_line (py "7" ++ [nl]) (fresh_world [py "x"]));
      reflexivity.
  - apply (proj2 run_test_carried_termination_reads_nothing
             (py "1.0") (py "127.0.0.1", 5000%Z)
             end_line (py " END " ++ [nl]) end_line [py "late"]
             (fresh_world
                [end_line ++ py " END " ++ [nl] ++ end_line; py "late"]));
      try reflexivity.
    vm_compute. discriminate.
Defined.



(** * Further properties *)

(** X1. What [end_pattern.match] accepts, spelled out: a line matches
    exactly when it is some whitespace, then [e], [n], [d], each in either
    case, then anything at all. *)
Theorem end_pattern_match_iff (line : str) :
  end_pattern_match line = true
  <-> exists ws c1 c2 c3 rest,
        line = ws ++ c1 :: c2 :: c3 :: rest
        /\ forallb is_space ws = true
        /\ (c1 = "e"%char \/ c1 = "E"%char)
        /\ (c2 = "n"%char \/ c2 = "N"%char)
        /\ (c3 = "d"%char \/ c3 = "D"%char).
Proof.
  rewrite end_pattern_match_starts_with_end. unfold starts_with_end. split.
  - intros H. destruct (lstrip_split line) as (ws & E & Hws).
    destruct (lstrip line) as [|c1 [|c2 [|c3 rest]]]; try discriminate.
    apply andb_true_iff in H as [H H3]. apply andb_true_iff in H as [H1 H2].
    exists ws, c1, c2, c3, rest.
    rewrite <- lit_i_e, <- lit_i_n, <- lit_i_d. auto.
  - intros (ws & c1 & c2 & c3 & rest & -> & Hws & H1 & H2 & H3).
    rewrite (lstrip_spaces ws _ Hws).
    apply lit_i_e in H1. apply lit_i_n in H2. apply lit_i_d in H3.
    rewrite lstrip_head by (destruct (is_space c1) eqn:E; [|reflexivity];
                            apply space_is_not_e in E; congruence).
    now rewrite H1, H2, H3.
Qed.

(** X2. The termination test does not look at leading whitespace, at the
    case of the letters, or at what comes after a match: padding a line in
    front, lower-casing it, or appending bytes to a matching line leaves
    the answer as it was. *)
Theorem end_pattern_match_insensitive :
  (forall ws line : str,
      forallb is_space ws = true ->
      end_pattern_match (ws ++ line) = end_pattern_match line)
  /\ (forall line : str,
         end_pattern_match (map lower line) = end_pattern_match line)
  /\ (forall line extra : str,
         end_pattern_match line = true ->
         end_pattern_match (line ++ extra) = true).
Proof.
  split; [|split].
  - intros ws line Hws. rewrite !end_pattern_match_starts_with_end.
    unfold starts_with_end. now rewrite (lstrip_spaces ws line Hws).
  - intros line. rewrite !end_pattern_match_starts_with_end.
    unfold starts_with_end. rewrite lstrip_map_lower.
    destruct (lstrip line) as [|c1 [|c2 [|c3 rest]]]; try reflexivity.
    cbn [map]. unfold lit_i. now rewrite !lower_lower.
  - intros line extra. rewrite !end_pattern_match_starts_with_end.
    unfold starts_with_end. intros H.
    rewrite lstrip_app by (destruct (lstrip line); [discriminate|congruence]).
    destruct (lstrip line) as [|c1 [|c2 [|c3 rest]]]; try discriminate.
    exact H.
Qed.

Lemma end_pattern_match_insensitive_witness :
  end_pattern_match (py "  " ++ py "eNd") = end_pattern_match (py "eNd")
  /\ end_pattern_match (py "eNd" ++ py "less" ++ [nl]) = true.
Proof.
  split.
  - apply (proj1 end_pattern_match_insensitive (py "  ") (py "eNd")).
    reflexivity.
  - apply (proj2 (proj2 end_pattern_match_insensitive) (py "eNd")
             (py "less" ++ [nl])).
    reflexivity.
Defined.

(** X3. One turn of [run_test]'s loop on a chunk that brings a newline,
    when the buffer (what was pending, then the chunk) is a run of complete
    lines, none of them a termination line, and a rest without a newline:
    the handler is called on each of those lines, in order, and on nothing
    else.  The rest is kept as the pending buffer exactly when it is at
    least two bytes longer than what was pending before; otherwise it is
    dropped. *)
Theorem loop_body_delivers_lines (prompt : str) (h : str -> M unit)
    (st : locals) (m : str) (others : list str) (lines : list str)
    (rest : str) (w : World) :
  done st = false -> initial_message st = [] ->
  inbox w = m :: others -> one_read m -> contains nl m = true ->
  join (messages st ++ [m]) = concat lines ++ rest ->
  Forall plain_line lines -> contains nl rest = false ->
  loop_body prompt h st w
  = (deliver h lines ;;
     ret (mkLocals []
            (if length (join (messages st)) + 2 <=? length rest
             then [rest] else [])
            (remaining_message st) false))
      (set_inbox others (after_prompt prompt w)).
Proof.
  intros Hd Hi Hw [Hm Hl] Hc Hj Hlines Hr.
  rewrite (loop_body_read prompt h st w m others Hi Hw Hm Hl).
  apply frame_plain_lines; assumption.
Qed.

Lemma loop_body_delivers_lines_witness :
  loop_body [] echo_handler (mkLocals [] [py "he"] [] false)
    (fresh_world [py "llo" ++ [nl] ++ py "you" ++ [nl] ++ py "and more"])
  = (deliver echo_handler [py "hello" ++ [nl]; py "you" ++ [nl]] ;;
     ret (mkLocals [] [py "and more"] [] false))
      (set_inbox []
         (after_prompt []
            (fresh_world
               [py "llo" ++ [nl] ++ py "you" ++ [nl] ++ py "and more"]))).
Proof.
  apply (loop_body_delivers_lines [] echo_handler
           (mkLocals [] [py "he"] [] false)
           (py "llo" ++ [nl] ++ py "you" ++ [nl] ++ py "and more") []
           [py "hello" ++ [nl]; py "you" ++ [nl]] (py "and more")
           (fresh_world
              [py "llo" ++ [nl] ++ py "you" ++ [nl] ++ py "and more"]));
    try reflexivity.
  - split; [reflexivity|]. vm_compute. discriminate.
  - repeat constructor.
Defined.

(** X4. A turn on a chunk whose buffer holds plain lines, then a
    termination line, then anything: the handler is called on the lines
    before the termination line only, the sub-test ends, and [run_test]'s
    loop returns the bytes after the termination line when they are at
    least two bytes longer than what was pending before the chunk
    (otherwise what [remaining_message] held, the empty string in
    [run_test]).  Lines after the termination line are not handled. *)
Theorem run_loop_stops_at_termination_line (bound : nat) (prompt : str)
    (h : str -> M unit) (st : locals) (m : str) (others : list str)
    (lines : list str) (tline rest : str) (w : World) :
  done st = false -> initial_message st = [] ->
  inbox w = m :: others -> one_read m -> contains nl m = true ->
  join (messages st ++ [m]) = concat lines ++ tline ++ rest ->
  Forall plain_line lines ->
  is_line tline = true -> end_pattern_match tline = true ->
  run_loop (S bound) prompt h st w
  = (deliver h lines ;;
     ret (if length (join (messages st)) + 2 <=? length rest
          then rest else remaining_message st))
      (set_inbox others (after_prompt prompt w)).
Proof.
  intros Hd Hi Hw [Hm Hl] Hc Hj Hlines Ht Hmt.
  cbn [run_loop]. rewrite Hd. unfold bind at 1.
  rewrite (loop_body_read prompt h st w m others Hi Hw Hm Hl).
  rewrite (frame_plain_lines_end h st [] (messages st) m lines tline rest
             _ Hd Hc Hj Hlines Ht Hmt).
  unfold bind.
  destruct (deliver h lines _) as [[] w1|e w1|]; try reflexivity.
  cbn [ret].
  destruct (length (join (messages st)) + 2 <=? length rest);
    destruct bound; reflexivity.
Qed.

Lemma run_loop_stops_at_termination_line_witness :
  run_loop 1 [] echo_handler (mkLocals [] [] [] false)
    (fresh_world [py "hi" ++ [nl] ++ end_line ++ py "5" ++ [nl]])
  = (deliver echo_handler [py "hi" ++ [nl]] ;; ret (py "5" ++ [nl]))
      (set_inbox []
         (after_prompt []
            (fresh_world [py "hi" ++ [nl] ++ end_line ++ py "5" ++ [nl]]))).
Proof.
  apply (run_loop_stops_at_termination_line 0 [] echo_handler
           (mkLocals [] [] [] false)
           (py "hi" ++ [nl] ++ end_line ++ py "5" ++ [nl]) []
           [py "hi" ++ [nl]] end_line (py "5" ++ [nl])
           (fresh_world [py "hi" ++ [nl] ++ end_line ++ py "5" ++ [nl]]));
    try reflexivity.
  - split; [reflexivity|]. vm_compute. discriminate.
  - repeat constructor.
Defined.

(** X5. Lines that reach [run_test] in pieces.  When the inbox holds, for
    each of several plain lines, the chunks the line arrives in (each read
    whole, only the last carrying the newline) and then a termination line
    in one chunk, [run_test] does this and nothing else: it shows its
    opening, then for every line sends the prompt once per chunk read and
    calls the handler once, on the chunks put together; then it prompts,
    reads the termination line and returns what follows it (if that is two
    bytes or more). *)
Theorem run_test_lines_in_chunks (test_name prompt : str)
    (h : str -> M unit) (groups : list (list str)) (tline rest : str)
    (others : list str) (w : World) :
  keeps_inbox h -> Forall line_in_chunks groups ->
  is_line tline = true -> end_pattern_match tline = true ->
  (len (tline ++ rest) <= 4096)%Z ->
  inbox w = concat groups ++ (tline ++ rest) :: others ->
  run_test test_name prompt h [] w
  = (print_flat (test_name ++ py ":") ;;
     send (header test_name) ;;
     serve_groups prompt h groups ;;
     reads prompt 1 ;;
     ret (kept rest)) w.
Proof.
  intros Hh Hgs Ht Hm Hlen Hw. unfold run_test, header.
  unfold bind at 1. cbn [print_flat]. unfold bind at 1. cbn [send].
  unfold bind at 1. cbn [print_flat]. unfold bind at 1. cbn [send].
  match goal with |- run_loop (turns ?w2) _ _ _ _ = _ =>
    replace (turns w2)
      with (length (concat groups)
            + S (length (join (inbox w2)) + length others + 2));
    [apply (run_loop_groups prompt h Hh groups tline rest others
              Hgs Ht Hm Hlen); exact Hw|] end.
  unfold turns. cbn [inbox emit]. rewrite Hw, length_app. cbn [length]. lia.
Qed.

Lemma run_test_lines_in_chunks_witness :
  run_test (py "Byte Count Test") (py "Bytes to count:") byte_count_handler []
    (fresh_world [py "ab"; py "c" ++ [nl]; py "xyz" ++ [nl];
                  end_line ++ py "tail"; py "later"])
  = (print_flat (py "Byte Count Test" ++ py ":") ;;
     send (header (py "Byte Count Test")) ;;
     serve_groups (py "Bytes to count:") byte_count_handler
       [[py "ab"; py "c" ++ [nl]]; [py "xyz" ++ [nl]]] ;;
     reads (py "Bytes to count:") 1 ;;
     ret (py "tail"))
      (fresh_world [py "ab"; py "c" ++ [nl]; py "xyz" ++ [nl];
                    end_line ++ py "tail"; py "later"]).
Proof.
  apply (run_test_lines_in_chunks (py "Byte Count Test")
           (py "Bytes to count:") byte_count_handler
           [[py "ab"; py "c" ++ [nl]]; [py "xyz" ++ [nl]]]
           end_line (py "tail") [py "later"]
           (fresh_world [py "ab"; py "c" ++ [nl]; py "xyz" ++ [nl];
                         end_line ++ py "tail"; py "later"]));
    try reflexivity.
  - intros line w a w' [= _ <-]. reflexivity.
  - repeat (constructor; try (split; [reflexivity|vm_compute; discriminate]);
            try (split; reflexivity)).
  - vm_compute. discriminate.
Defined.

(** X6. The echo sub-test gives a line back byte for byte when the line
    arrives in reads of its own: when every line comes in one or more
    chunks that hold nothing of another line (only its last chunk carrying
    the newline), and a termination line then comes in one chunk, what is
    sent to the peer is the sub-test's header and then exactly the lines,
    each whole and in order; the bytes after the termination line are
    returned (if two or more) and the later arrivals are left unread. *)
Theorem echo_test_echoes_lines (groups : list (list str)) (tline rest : str)
    (others : list str) (w : World) :
  Forall line_in_chunks groups ->
  is_line tline = true -> end_pattern_match tline = true ->
  (len (tline ++ rest) <= 4096)%Z ->
  inbox w = concat groups ++ (tline ++ rest) :: others ->
  exists w',
    run_test (py "Echo Test") [] echo_handler [] w = Ok (kept rest) w'
    /\ inbox w' = others
    /\ sent_data (trace w')
       = sent_data (trace w)
         ++ header (py "Echo Test") :: map (@concat ascii) groups.
Proof.
  intros Hgs Ht Hm Hlen Hw. unfold run_test.
  unfold bind at 1. cbn [print_flat]. unfold bind at 1. cbn [send].
  match goal with |- context [run_loop (turns ?w2) _ _ _ ?w2] =>
    replace (turns w2)
      with (length (concat groups)
            + S (length (join (inbox w2)) + length others + 2))
      by (unfold turns; cbn [inbox emit]; rewrite Hw, length_app;
          cbn [length]; lia);
    rewrite (run_loop_groups [] echo_handler echo_handler_keeps_inbox
               groups tline rest others Hgs Ht Hm Hlen _ w2 Hw);
    destruct (serve_groups_echo groups _ Hgs w2 Hw)
      as (w1 & Hs & Hi & Hd) end.
  rewrite (bind_Ok _ _ _ w1 tt Hs). cbn [reads truthy].
  unfold bind at 1 2. cbn [ret].
  rewrite (recv_bind _ (tline ++ rest) others w1 Hi Hlen).
  eexists. split; [reflexivity|]. split; [reflexivity|].
  cbn [trace set_inbox]. rewrite Hd. cbn [trace emit].
  rewrite !sent_data_app. cbn. rewrite <- !app_assoc. reflexivity.
Qed.

Lemma echo_test_echoes_lines_witness :
  exists w',
    run_test (py "Echo Test") [] echo_handler []
      (fresh_world [py "hel"; py "lo" ++ [nl]; py "hi" ++ [nl]; end_line])
    = Ok (kept []) w'
    /\ inbox w' = []
    /\ sent_data (trace w')
       = sent_data (trace (fresh_world [py "hel"; py "lo" ++ [nl];
                                        py "hi" ++ [nl]; end_line]))
         ++ header (py "Echo Test")
            :: map (@concat ascii) [[py "hel"; py "lo" ++ [nl]];
                                    [py "hi" ++ [nl]]].
Proof.
  apply (echo_test_echoes_lines
           [[py "hel"; py "lo" ++ [nl]]; [py "hi" ++ [nl]]] end_line [] []
           (fresh_world [py "hel"; py "lo" ++ [nl]; py "hi" ++ [nl];
                         end_line]));
    try reflexivity.
  - repeat (constructor; try (split; [reflexivity|vm_compute; discriminate]);
            try (split; reflexivity)).
  - vm_compute. discriminate.
Defined.

(** X7. A session whose three termination lines arrive in one piece with
    more bytes after them.  The session runs through on that one read.  If
    two bytes or more follow the third termination line, the server logs
    and sends ["Received unexpected data after all tests ended: "] with
    exactly those bytes (and no newline of its own) before its closing
    message; a single byte after it is dropped without a word.  Later
    arrivals stay unread. *)
Theorem batch_session_reports_trailing_data (VERSION : str) (addr : str * Z)
    (l1 l2 l3 rest : str) (others : list str) (w : World) :
  is_line l1 = true -> end_pattern_match l1 = true ->
  is_line l2 = true -> end_pattern_match l2 = true ->
  is_line l3 = true -> end_pattern_match l3 = true ->
  inbox w = (l1 ++ l2 ++ l3 ++ rest) :: others ->
  (len (l1 ++ l2 ++ l3 ++ rest) <= 4096)%Z ->
  handle_connection VERSION addr w
  = Ok tt
      (set_inbox others
         (emit_all (batch_openings VERSION ++ session_end addr (kept rest))
            w)).
Proof.
  intros H1 M1 H2 M2 H3 M3 Hw Hlen.
  unfold handle_connection. unfold bind at 1. cbn [send].
  unfold bind at 1.
  rewrite (run_test_read_terminator (py "Echo Test") [] echo_handler
             l1 (l2 ++ l3 ++ rest) others
             (emit (Sent (py "Netbyte Test Server v" ++ VERSION ++ [nl])) w)
             Hw Hlen H1 M1).
  rewrite (kept_terminator l2 (l3 ++ rest) M2).
  unfold bind at 1.
  rewrite (run_test_carried_terminator (py "Hex Test")
             (py "Number of bytes to send:") hex_handler l2 (l3 ++ rest)
             _ H2 M2).
  rewrite (kept_terminator l3 rest M3).
  unfold bind at 1.
  rewrite (run_test_carried_terminator (py "Byte Count Test")
             (py "Bytes to count:") byte_count_handler l3 rest _ H3 M3).
  unfold session_end, bind. destruct (truthy (kept rest)); reflexivity.
Qed.

Lemma batch_session_reports_trailing_data_witness :
  handle_connection (py "1.0") (py "127.0.0.1", 5000%Z)
    (fresh_world [end_line ++ end_line ++ end_line ++ py "hi"; py "late"])
  = Ok tt
      (set_inbox [py "late"]
         (emit_all
            (batch_openings (py "1.0")
             ++ session_end (py "127.0.0.1", 5000%Z) (kept (py "hi")))
            (fresh_world
               [end_line ++ end_line ++ end_line ++ py "hi"; py "late"]))).
Proof.
  apply (batch_session_reports_trailing_data (py "1.0")
           (py "127.0.0.1", 5000%Z) end_line end_line end_line (py "hi")
           [py "late"]
           (fresh_world
              [end_line ++ end_line ++ end_line ++ py "hi"; py "late"]));
    try reflexivity.
  vm_compute. discriminate.
Defined.

(** X10. What the loop of [run_test] keeps between turns never holds a
    newline: if the pending buffer has none before a turn and the turn
    does not end the sub-test, it has none after it, whatever was read and
    whatever the handler did.  (So no complete line is ever left waiting.)
    After any turn the carried-over bytes are used up, and
    [remaining_message] is untouched while the sub-test goes on. *)
Theorem pending_holds_no_newline (prompt : str) (h : str -> M unit)
    (st st' : locals) (w w' : World) :
  loop_body prompt h st w = Ok st' w' ->
  done st = false -> done st' = false ->
  contains nl (join (messages st)) = false ->
  contains nl (join (messages st')) = false
  /\ initial_message st' = []
  /\ remaining_message st' = remaining_message st.
Proof.
  intros Hb Hd Hd' Hp.
  destruct (loop_body_Ok prompt h st st' w w' Hb) as (m & w2 & Hf).
  revert Hf. unfold frame. destruct (contains nl m) eqn:Hm.
  - unfold bind. rewrite Hd.
    destruct (consume_lines _ h _ 0 _ false w2) as [[s d] w3|e w3|] eqn:Hc;
      [|discriminate|discriminate].
    destruct (s <? len m - 1)%Z; [destruct d|];
      intros [= <- <-]; cbn [messages initial_message remaining_message done]
        in *; try discriminate; try (now repeat split).
    destruct (consume_lines_exit h _ _ 0 _ w2 s w3 (Z.le_refl 0) eq_refl Hc)
      as [Hs Hfind].
    repeat split. cbn [join concat]. rewrite app_nil_r.
    now apply find_none_contains.
  - intros [= <- <-]. cbn [messages initial_message remaining_message].
    repeat split. rewrite join_snoc. unfold contains in *.
    now rewrite existsb_app, Hp, Hm.
Qed.

Lemma pending_holds_no_newline_witness :
  contains nl
    (join (messages (mkLocals [] [py "lo and behold"] [] false))) = false
  /\ initial_message (mkLocals [] [py "lo and behold"] [] false) = []
  /\ remaining_message (mkLocals [] [py "lo and behold"] [] false)
     = remaining_message (mkLocals [] [py "hel"] [] false).
Proof.
  apply (pending_holds_no_newline [] echo_handler
           (mkLocals [] [py "hel"] [] false)
           (mkLocals [] [py "lo and behold"] [] false)
           (fresh_world [py "lo" ++ [nl] ++ py "lo and behold"])
           (emit_all [Flat (py "Received: hello"); Sent (py "hello" ++ [nl])]
              (fresh_world [])));
    reflexivity.
Defined.

(** X11. A peer that hangs up in the middle of a line.  When all that
    arrives is chunks without a newline and then the peer closes,
    [run_test] prompts and reads once per chunk, prompts once more, and
    raises [DisconnectedError]: the handler is never called, so the bytes
    of the unfinished line are not handled at all. *)
Theorem unfinished_line_is_discarded (test_name prompt : str)
    (h : str -> M unit) (cs : list str) (w : World) :
  Forall partial_chunk cs -> inbox w = cs ->
  run_test test_name prompt h [] w
  = (print_flat (test_name ++ py ":") ;;
     send (header test_name) ;;
     reads prompt (length cs) ;;
     (if truthy prompt then send prompt else ret tt) ;;
     raise DisconnectedError) w.
Proof.
  intros Hcs Hw. unfold run_test, header.
  unfold bind at 1. cbn [print_flat]. unfold bind at 1. cbn [send].
  unfold bind at 1. cbn [print_flat]. unfold bind at 1. cbn [send].
  match goal with |- run_loop (turns ?w2) _ _ _ _ = _ =>
    replace (turns w2) with (length cs + S (length (join (inbox w2)) + 1))
      by (unfold turns; cbn [inbox emit]; rewrite Hw; lia) end.
  apply (run_loop_partial prompt h cs Hcs). exact Hw.
Qed.

Lemma unfinished_line_is_discarded_witness :
  run_test (py "Echo Test") [] echo_handler []
    (fresh_world [py "hel"; py "lo wor"])
  = (print_flat (py "Echo Test" ++ py ":") ;;
     send (header (py "Echo Test")) ;;
     reads [] 2 ;;
     ret tt ;;
     raise DisconnectedError) (fresh_world [py "hel"; py "lo wor"]).
Proof.
  apply (unfinished_line_is_discarded (py "Echo Test") [] echo_handler
           [py "hel"; py "lo wor"] (fresh_world [py "hel"; py "lo wor"]));
    [|reflexivity].
  repeat (constructor;
          try (split; [split; [reflexivity|vm_compute; discriminate]
                      |reflexivity])).
Defined.

(** X12. A piece of a line handed over from the sub-test before.  When the
    carried-over bytes hold no newline, [run_test] prompts once without
    reading, then reads on, and the first line the handler gets is the
    carried-over bytes joined with the chunks that complete the line; the
    sub-test then goes on as usual with the lines and the termination line
    that follow. *)
Theorem carried_piece_is_joined (test_name prompt : str) (h : str -> M unit)
    (carried : str) (g : list str) (groups : list (list str))
    (tline rest : str) (others : list str) (w : World) :
  keeps_inbox h ->
  truthy carried = true -> contains nl carried = false ->
  g <> [] -> Forall one_read g -> plain_line (carried ++ concat g) ->
  Forall line_in_chunks groups ->
  is_line tline = true -> end_pattern_match tline = true ->
  (len (tline ++ rest) <= 4096)%Z ->
  inbox w = g ++ concat groups ++ (tline ++ rest) :: others ->
  run_test test_name prompt h carried w
  = (print_flat (test_name ++ py ":") ;;
     send (header test_name) ;;
     (if truthy prompt then send prompt else ret tt) ;;
     reads prompt (length g) ;;
     h (carried ++ concat g) ;;
     serve_groups prompt h groups ;;
     reads prompt 1 ;;
     ret (kept rest)) w.
Proof.
  intros Hh Hc Hn Hne Hg Hp Hgs Ht Hm Hlen Hw. unfold run_test, header.
  unfold bind at 1. cbn [print_flat]. unfold bind at 1. cbn [send].
  unfold bind at 1. cbn [print_flat]. unfold bind at 1. cbn [send].
  match goal with |- run_loop (turns ?w2) _ _ _ _ = _ =>
    replace (turns w2)
      with (S (length g
               + (length (concat groups)
                  + S (length (join (inbox w2)) + length others + 1))))
      by (unfold turns; cbn [inbox emit]; rewrite Hw, !length_app;
          cbn [length]; lia) end.
  cbn [run_loop done]. unfold bind at 1.
  rewrite (loop_body_carried_piece prompt h carried _ Hc Hn).
  rewrite prompt_bind.
  assert (Hw1 : inbox (after_prompt prompt
                         (emit (Sent (test_name ++ py ":" ++ [nl]
                                      ++ py "Type 'end' to exit" ++ [nl]))
                            (emit (Flat (test_name ++ py ":")) w)))
                = g ++ concat groups ++ (tline ++ rest) :: others)
    by (rewrite inbox_after_prompt; exact Hw).
  assert (Hp1 : plain_line (join [carried] ++ concat g))
    by (cbn [join concat]; rewrite app_nil_r; exact Hp).
  rewrite (run_loop_group prompt h g Hg [carried]
             (concat groups ++ (tline ++ rest) :: others) _ _ Hne Hp1 Hw1).
  cbn [join concat]. rewrite app_nil_r.
  destruct (reads_group prompt g _ _ Hg Hw1) as (w1 & Hr & Hi).
  rewrite !(bind_Ok (reads prompt (length g)) _ _ w1 tt Hr).
  apply bind_ext_Ok. intros a w' Ha.
  apply (run_loop_groups prompt h Hh groups tline rest others Hgs Ht Hm Hlen).
  rewrite (Hh _ _ _ _ Ha). exact Hi.
Qed.

Lemma carried_piece_is_joined_witness :
  run_test (py "Hex Test") (py "Number of bytes to send:") hex_handler
    (py "12") (fresh_world [py "3" ++ [nl]; end_line])
  = (print_flat (py "Hex Test" ++ py ":") ;;
     send (header (py "Hex Test")) ;;
     send (py "Number of bytes to send:") ;;
     reads (py "Number of bytes to send:") 1 ;;
     hex_handler (py "12" ++ py "3" ++ [nl] ++ []) ;;
     serve_groups (py "Number of bytes to send:") hex_handler [] ;;
     reads (py "Number of bytes to send:") 1 ;;
     ret (kept [])) (fresh_world [py "3" ++ [nl]; end_line]).
Proof.
  apply (carried_piece_is_joined (py "Hex Test")
           (py "Number of bytes to send:") hex_handler (py "12")
           [py "3" ++ [nl]] [] end_line [] []
           (fresh_world [py "3" ++ [nl]; end_line]));
    try reflexivity.
  - exact hex_handler_keeps_inbox.
  - discriminate.
  - repeat constructor. vm_compute. discriminate.
  - split; reflexivity.
  - constructor.
  - vm_compute. discriminate.
Defined.

(** X13. Every reply of the byte-count handler is one complete line:
    whatever line it is given, it sends a single message, and that message
    has exactly one newline, at its end. *)
Theorem byte_count_reply_is_one_line (line : str) (w : World) :
  exists reply w',
    byte_count_handler line w = Ok tt w'
    /\ sent_data (trace w') = sent_data (trace w) ++ [reply]
    /\ is_line reply = true.
Proof.
  exists ((py "Received " ++ fmt_d (len line) ++ py " bytes.") ++ [nl]).
  eexists. split; [reflexivity|]. split.
  - cbn [trace emit]. rewrite !sent_data_app. cbn. now rewrite app_nil_r.
  - apply is_line_snoc. rewrite fmt_d_len.
    destruct (dec_digits (length line)) as (_ & Hd & _).
    pose proof (digits_hold_no_newline _ Hd) as Hn.
    unfold contains in *. rewrite !existsb_app, Hn. reflexivity.
Qed.

(** X14. A count written with a minus sign is never accepted by the hex
    handler, not even [-0]: whenever the line, stripped of surrounding
    whitespace, starts with [-], the handler sends the warning and then its
    default of 10 bytes. *)
Theorem hex_handler_refuses_minus (line ds : str) (w : World) :
  strip line = "-"%char :: ds ->
  exists w',
    hex_handler line w = Ok tt w'
    /\ trace w'
       = trace w ++ [Sent warning;
                     Flat (py "Sending: " ++ hex_string w 10);
                     Sent (hex_string w 10)].
Proof.
  intros Hs. apply hex_handler_default.
  unfold int_literal. rewrite Hs. unfold parse_digits.
  destruct ds as [|d ds']; [now left|].
  destruct (forallb is_digit (d :: ds')); [|now left].
  right. eexists. split; [reflexivity|].
  pose proof (digits_value_nonneg (d :: ds')). lia.
Qed.

Lemma hex_handler_refuses_minus_witness :
  exists w',
    hex_handler (py " -0" ++ [nl]) (fresh_world []) = Ok tt w'
    /\ trace w'
       = trace (fresh_world [])
         ++ [Sent warning;
             Flat (py "Sending: " ++ hex_string (fresh_world []) 10);
             Sent (hex_string (fresh_world []) 10)].
Proof.
  apply (hex_handler_refuses_minus (py " -0" ++ [nl]) (py "0")
           (fresh_world [])).
  reflexivity.
Defined.
